(** * Promotions service: the model layer ([service/models.py])

    A shallow embedding of the [Promotion] model class and of the
    functions defined on it, followed by the properties that its
    specification states about them.

    Conventions of the embedding.
    - Python [int] is [Z]; [str] is [string]; a [dict] with string keys is
      a [gmap string value].
    - A method that can raise returns an [outcome]; a method that also
      mutates [self], the data base or reads the clock is a function in the
      state-and-exception monad [M].
    - The table rows are typed by the declared columns (record
      [Promotion]); what a request body or a query-argument dictionary
      carries is dynamically typed (type [value]). *)

From Stdlib Require Import ZArith QArith List String Ascii Bool Lia Eqdep_dec.
From stdpp Require Import gmap strings.
Import ListNotations.

Local Open Scope string_scope.
Local Open Scope Z_scope.

(** ** Exceptions and outcomes *)

Inductive exn : Type :=
| DataValidationError (msg : string)
| AttributeError (name : string)
| KeyError (key : string)
| TypeError
| ValueError
| UnboundLocalError
| ZeroDivisionError
| StatementError.

Inductive outcome (A : Type) : Type :=
| Ok (a : A)
| Raise (e : exn).
Arguments Ok {A} a.
Arguments Raise {A} e.

(** [M S A]: a computation over a mutable state [S] that returns an [A]
    or raises.  The state reached when an exception is raised is kept:
    Python does not roll back assignments made before the [raise]. *)
Definition M (S A : Type) : Type := S -> S * outcome A.

Definition ret {S A} (a : A) : M S A := fun s => (s, Ok a).
Definition raise {S A} (e : exn) : M S A := fun s => (s, Raise e).
Definition bind {S A B} (m : M S A) (k : A -> M S B) : M S B :=
  fun s => match m s with
           | (s', Ok a) => k a s'
           | (s', Raise e) => (s', Raise e)
           end.
Definition get {S} : M S S := fun s => (s, Ok s).
Definition modify {S} (f : S -> S) : M S unit := fun s => (f s, Ok tt).
Definition lift {S A} (o : outcome A) : M S A := fun s => (s, o).
(** [try: m except h]: exceptions for which [h] answers are replaced. *)
Definition catch {S A} (m : M S A) (h : exn -> option exn) : M S A :=
  fun s => match m s with
           | (s', Raise e) => (s', Raise (default e (h e)))
           | r => r
           end.

Declare Scope py_scope.
Delimit Scope py_scope with py.
Notation "'let*' x ':=' m 'in' k" := (bind m (fun x => k))
  (at level 10, x name, m at level 100, k at level 200) : py_scope.
Notation "'do' m 'then' k" := (bind m (fun _ => k))
  (at level 10, m at level 100, k at level 200) : py_scope.

(** ** [datetime]

    The standard library's naive [datetime]: seven integer fields that
    the constructor keeps in range, ordered lexicographically. *)
Module DateTime.

Definition is_leap (y : Z) : bool :=
  (y mod 4 =? 0) && (negb (y mod 100 =? 0) || (y mod 400 =? 0)).

Definition days_in_month (y m : Z) : Z :=
  if (m =? 2) then (if is_leap y then 29 else 28)
  else if (m =? 4) || (m =? 6) || (m =? 9) || (m =? 11) then 30
  else 31.

Definition in_range (y m d h mi s us : Z) : bool :=
  (1 <=? y) && (y <=? 9999) && (1 <=? m) && (m <=? 12)
  && (1 <=? d) && (d <=? days_in_month y m)
  && (0 <=? h) && (h <? 24) && (0 <=? mi) && (mi <? 60)
  && (0 <=? s) && (s <? 60) && (0 <=? us) && (us <? 1000000).

Record datetime : Type := mk_datetime {
  year : Z; month : Z; day : Z;
  hour : Z; minute : Z; second : Z; microsecond : Z;
  dt_ok : in_range year month day hour minute second microsecond = true
}.

Definition check (b : bool) : option (b = true) :=
  match b as b' return option (b' = true) with
  | true => Some eq_refl
  | false => None
  end.

(** [datetime(y, m, d, h, mi, s, us)]: [ValueError] out of range. *)
Definition make (y m d h mi s us : Z) : option datetime :=
  match check (in_range y m d h mi s us) with
  | Some H => Some (mk_datetime y m d h mi s us H)
  | None => None
  end.

Definition fields (t : datetime) : list Z :=
  [year t; month t; day t; hour t; minute t; second t; microsecond t].

Fixpoint lex_compare (a b : list Z) : comparison :=
  match a, b with
  | [], [] => Eq
  | [], _ :: _ => Lt
  | _ :: _, [] => Gt
  | x :: a', y :: b' =>
      match x ?= y with
      | Eq => lex_compare a' b'
      | c => c
      end
  end.

Definition compare (a b : datetime) : comparison :=
  lex_compare (fields a) (fields b).

Definition eqb (a b : datetime) : bool :=
  match compare a b with Eq => true | _ => false end.
Definition leb (a b : datetime) : bool :=
  match compare a b with Gt => false | _ => true end.
Definition ltb (a b : datetime) : bool :=
  match compare a b with Lt => true | _ => false end.
Definition geb (a b : datetime) : bool :=
  match compare a b with Lt => false | _ => true end.
Definition gtb (a b : datetime) : bool :=
  match compare a b with Gt => true | _ => false end.

(** *** Decimal fields of fixed width *)

Definition char_of_digit (d : Z) : ascii := ascii_of_N (Z.to_N (48 + d)).

Definition digit_of_char (c : ascii) : option Z :=
  let n := Z.of_N (N_of_ascii c) in
  if (48 <=? n) && (n <=? 57) then Some (n - 48) else None.

(** ["%0kd" % n], for [0 <= n < 10^k]. *)
Fixpoint digits (k : nat) (n : Z) : list ascii :=
  match k with
  | O => []
  | S k' => digits k' (n / 10) ++ [char_of_digit (n mod 10)]
  end.

Definition number_from (acc : Z) (cs : list ascii) : option Z :=
  fold_left (fun (a : option Z) c =>
               match a, digit_of_char c with
               | Some v, Some d => Some (10 * v + d)
               | _, _ => None
               end) cs (Some acc).

Definition number (cs : list ascii) : option Z := number_from 0 cs.

Definition is_char (c : ascii) (s : string) : bool :=
  match s with
  | String c' EmptyString => Ascii.eqb c c'
  | _ => false
  end.

(** [datetime.isoformat()]: [YYYY-MM-DDTHH:MM:SS], with [.ffffff]
    appended when the microsecond field is not zero. *)
Definition isoformat_chars (t : datetime) : list ascii :=
  digits 4 (year t) ++ list_ascii_of_string "-"
  ++ digits 2 (month t) ++ list_ascii_of_string "-"
  ++ digits 2 (day t) ++ list_ascii_of_string "T"
  ++ digits 2 (hour t) ++ list_ascii_of_string ":"
  ++ digits 2 (minute t) ++ list_ascii_of_string ":"
  ++ digits 2 (second t)
  ++ (if microsecond t =? 0 then []
      else list_ascii_of_string "." ++ digits 6 (microsecond t)).

Definition isoformat (t : datetime) : string :=
  string_of_list_ascii (isoformat_chars t).

(** The time part [HH[:MM[:SS[.fff[fff]]]]]. *)
Definition parse_fraction (cs : list ascii) : option Z :=
  match cs with
  | [_; _; _] => option_map (fun n => n * 1000) (number cs)
  | [_; _; _; _; _; _] => number cs
  | _ => None
  end.

Definition parse_time (cs : list ascii) : option (Z * Z * Z * Z) :=
  match cs with
  | h1 :: h2 :: rest =>
      match number [h1; h2], rest with
      | Some h, [] => Some (h, 0, 0, 0)
      | Some h, c1 :: m1 :: m2 :: rest1 =>
          if is_char c1 ":" then
            match number [m1; m2], rest1 with
            | Some mi, [] => Some (h, mi, 0, 0)
            | Some mi, c2 :: s1 :: s2 :: rest2 =>
                if is_char c2 ":" then
                  match number [s1; s2], rest2 with
                  | Some s, [] => Some (h, mi, s, 0)
                  | Some s, c3 :: frac =>
                      if is_char c3 "." then
                        option_map (fun us => (h, mi, s, us))
                                   (parse_fraction frac)
                      else None
                  | None, _ => None
                  end
                else None
            | _, _ => None
            end
          else None
      | _, _ => None
      end
  | _ => None
  end.

(** [datetime.fromisoformat(s)] on the format that [isoformat] writes:
    [YYYY-MM-DD], optionally followed by any one separator character
    and a time part.  Where this function answers [Some t] the
    library returns [t].  [None] stands for [ValueError]; the library
    raises it for the strings of [unreadable_year] below, but it also
    reads strings that this model of naive values leaves out (a UTC
    offset, the basic and week formats of later releases), so a
    property may rest on [None] only for strings of that class. *)
Definition fromisoformat (s : string) : option datetime :=
  match list_ascii_of_string s with
  | y1 :: y2 :: y3 :: y4 :: c1 :: m1 :: m2 :: c2 :: d1 :: d2 :: rest =>
      if is_char c1 "-" && is_char c2 "-" then
        match number [y1; y2; y3; y4], number [m1; m2], number [d1; d2] with
        | Some y, Some m, Some d =>
            match rest with
            | [] => make y m d 0 0 0 0
            | _ :: tm =>
                match parse_time tm with
                | Some (h, mi, sec, us) => make y m d h mi sec us
                | None => None
                end
            end
        | _, _, _ => None
        end
      else None
  | _ => None
  end.

End DateTime.
Export DateTime(datetime).

(** ** The data model *)

(** [class TypeOfPromo(Enum)].  The member values leave a gap between
    [BOGOF] and [Unknown]. *)
Inductive TypeOfPromo : Type := Discount | BOGOF | Unknown.

Module TypeOfPromo.
Definition value (c : TypeOfPromo) : Z :=
  match c with Discount => 0 | BOGOF => 1 | Unknown => 3 end.

Definition name (c : TypeOfPromo) : string :=
  match c with
  | Discount => "Discount"
  | BOGOF => "BOGOF"
  | Unknown => "Unknown"
  end.

Definition members : list TypeOfPromo := [Discount; BOGOF; Unknown].

Definition eqb (a b : TypeOfPromo) : bool := value a =? value b.

Definition member_named (s : string) : option TypeOfPromo :=
  List.find (fun c => String.eqb (name c) s) members.

(** [TypeOfPromo[s]] *)
Definition getitem (s : string) : outcome TypeOfPromo :=
  match member_named s with
  | Some c => Ok c
  | None => Raise (KeyError s)
  end.

(** Attributes that the class object has besides its members, on every
    CPython 3 release: [getattr] finds them before it looks for a
    member, and answers an object that is not a member.  The list is
    not all of them (private names such as [_member_map_] are left
    out): a property may rest on a name being no attribute only where
    that is certain, as for a name with a dot in it. *)
Definition class_attributes : list string :=
  ["__members__"; "__name__"; "__qualname__"; "__module__"; "__doc__";
   "__class__"; "__dict__"; "mro"].
End TypeOfPromo.

(** Dynamically typed values: what a JSON body or a dictionary of query
    arguments holds, and what an attribute of an instance holds before
    the row is written.  [VList] is a list of which only emptiness is
    observed; [VClassAttr] is an attribute of the class [TypeOfPromo]
    other than a member. *)
Inductive value : Type :=
| VNone
| VBool (b : bool)
| VInt (z : Z)
| VStr (s : string)
| VDateTime (t : datetime)
| VEnum (c : TypeOfPromo)
| VList (nonempty : bool)
| VClassAttr (name : string).

Definition truthy (v : value) : bool :=
  match v with
  | VNone => false
  | VBool b => b
  | VInt z => negb (z =? 0)
  | VStr s => negb (String.eqb s "")
  | VDateTime _ => true
  | VEnum _ => true
  | VList b => b
  | VClassAttr _ => true
  end.

Definition is_str (v : value) : bool :=
  match v with VStr _ => true | _ => false end.

Definition is_none (v : value) : bool :=
  match v with VNone => true | _ => false end.

(** [getattr(TypeOfPromo, v)] *)
Definition getattr_TypeOfPromo (v : value) : outcome value :=
  match v with
  | VStr s =>
      match TypeOfPromo.member_named s with
      | Some c => Ok (VEnum c)
      | None =>
          if existsb (String.eqb s) TypeOfPromo.class_attributes
          then Ok (VClassAttr s)
          else Raise (AttributeError s)
      end
  | _ => Raise TypeError
  end.

(** A row of the table, typed by the declared columns: [id] is [None]
    until the store assigns the primary key, [description] is the one
    nullable column. *)
Record Promotion : Type := mk_Promotion {
  id : option Z;
  product_name : string;
  category : TypeOfPromo;
  product_id : Z;
  amount : Z;
  description : option string;
  from_date : datetime;
  to_date : datetime
}.

Definition set_id (i : option Z) (p : Promotion) : Promotion :=
  mk_Promotion i (product_name p) (category p) (product_id p) (amount p)
               (description p) (from_date p) (to_date p).

(** The attribute values of an instance while it is filled from a
    request: Python checks no type on assignment. *)
Record attrs : Type := mk_attrs {
  a_id : value;
  a_product_name : value;
  a_category : value;
  a_product_id : value;
  a_amount : value;
  a_description : value;
  a_from_date : value;
  a_to_date : value
}.

Definition set_product_name (v : value) (a : attrs) : attrs :=
  mk_attrs (a_id a) v (a_category a) (a_product_id a) (a_amount a)
           (a_description a) (a_from_date a) (a_to_date a).
Definition set_category (v : value) (a : attrs) : attrs :=
  mk_attrs (a_id a) (a_product_name a) v (a_product_id a) (a_amount a)
           (a_description a) (a_from_date a) (a_to_date a).
Definition set_product_id (v : value) (a : attrs) : attrs :=
  mk_attrs (a_id a) (a_product_name a) (a_category a) v (a_amount a)
           (a_description a) (a_from_date a) (a_to_date a).
Definition set_amount (v : value) (a : attrs) : attrs :=
  mk_attrs (a_id a) (a_product_name a) (a_category a) (a_product_id a) v
           (a_description a) (a_from_date a) (a_to_date a).
Definition set_description (v : value) (a : attrs) : attrs :=
  mk_attrs (a_id a) (a_product_name a) (a_category a) (a_product_id a)
           (a_amount a) v (a_from_date a) (a_to_date a).
Definition set_from_date (v : value) (a : attrs) : attrs :=
  mk_attrs (a_id a) (a_product_name a) (a_category a) (a_product_id a)
           (a_amount a) (a_description a) v (a_to_date a).
Definition set_to_date (v : value) (a : attrs) : attrs :=
  mk_attrs (a_id a) (a_product_name a) (a_category a) (a_product_id a)
           (a_amount a) (a_description a) (a_from_date a) v.

Definition set_a_id (v : value) (a : attrs) : attrs :=
  mk_attrs v (a_product_name a) (a_category a) (a_product_id a) (a_amount a)
           (a_description a) (a_from_date a) (a_to_date a).

Definition of_option {A} (f : A -> value) (o : option A) : value :=
  match o with Some x => f x | None => VNone end.

(** The attribute values of a typed row. *)
Definition attrs_of (p : Promotion) : attrs :=
  mk_attrs (of_option VInt (id p)) (VStr (product_name p))
           (VEnum (category p)) (VInt (product_id p)) (VInt (amount p))
           (of_option VStr (description p))
           (VDateTime (from_date p)) (VDateTime (to_date p)).

(** ** Serialization *)

(** [Promotion.serialize] *)
Definition serialize (self : Promotion) : gmap string value :=
  <["id" := of_option VInt (id self)]>
  (<["product_name" := VStr (product_name self)]>
  (<["category" := VStr (TypeOfPromo.name (category self))]>
  (<["product_id" := VInt (product_id self)]>
  (<["amount" := VInt (amount self)]>
  (<["description" := of_option VStr (description self)]>
  (<["from_date" := VStr (DateTime.isoformat (from_date self))]>
  (<["to_date" := VStr (DateTime.isoformat (to_date self))]> ∅))))))).

(** The argument of [deserialize]: a dictionary, or anything else a
    request body decodes to. *)
Inductive body : Type :=
| Dict (d : gmap string value)
| NotDict (v : value).

(** [data[key]] for a string [key]: whatever is not a dictionary
    refuses a string subscript. *)
Definition subscript (data : body) (key : string) : outcome value :=
  match data with
  | Dict d =>
      match d !! key with
      | Some v => Ok v
      | None => Raise (KeyError key)
      end
  | NotDict _ => Raise TypeError
  end.

(** The conversion of a date field: a non-empty string is parsed, any
    other value is stored as it is. *)
Definition date_field (v : value) : outcome value :=
  match v with
  | VStr s =>
      if truthy v then
        match DateTime.fromisoformat s with
        | Some t => Ok (VDateTime t)
        | None => Raise ValueError
        end
      else Ok v
  | _ => Ok v
  end.

Local Open Scope py_scope.

(** The [try] block of [Promotion.deserialize]. *)
Definition deserialize_try (data : body) : M attrs unit :=
  let* v := lift (subscript data "product_name") in
  do modify (set_product_name v) then
  let* v := lift (subscript data "category") in
  let* c := lift (getattr_TypeOfPromo v) in
  do modify (set_category c) then
  let* v := lift (subscript data "product_id") in
  do modify (set_product_id v) then
  let* v := lift (subscript data "amount") in
  do modify (set_amount v) then
  let* v := lift (subscript data "description") in
  do modify (set_description v) then
  let* v := lift (subscript data "from_date") in
  let* t := lift (date_field v) in
  do modify (set_from_date t) then
  let* v := lift (subscript data "to_date") in
  let* t := lift (date_field v) in
  modify (set_to_date t).

(** The three [except] clauses. *)
Definition deserialize_except (e : exn) : option exn :=
  match e with
  | AttributeError name =>
      Some (DataValidationError ("Invalid attribute: " ++ name))
  | KeyError key =>
      Some (DataValidationError ("Invalid Promotion: missing " ++ key))
  | TypeError =>
      Some (DataValidationError
              "Invalid Promotion: body of request contained bad or no data")
  | _ => None
  end.

(** [Promotion.deserialize]: the instance reached, and [Ok tt] where the
    method returns [self]. *)
Definition deserialize (data : body) : M attrs unit :=
  catch (deserialize_try data) deserialize_except.

(** ** The store and the clock *)

(** The table behind [db.session]: its rows in the order in which a
    query without [ORDER BY] yields them, and the next primary key. *)
Record DB : Type := mk_DB {
  rows : list Promotion;
  next_id : Z
}.

(** [db.session.add(self); db.session.commit()] for a new instance: the
    store assigns the key and the instance reads it back. *)
Definition session_add (st : Promotion * DB) : Promotion * DB :=
  let self := set_id (Some (next_id (snd st))) (fst st) in
  (self, mk_DB (rows (snd st) ++ [self]) (next_id (snd st) + 1)).

Definition same_id (a b : Promotion) : bool :=
  match id a, id b with
  | Some i, Some j => i =? j
  | _, _ => false
  end.

(** [db.session.commit()] for an instance loaded from the table: the
    row with its key takes the current attribute values. *)
Definition session_commit (st : Promotion * DB) : Promotion * DB :=
  (fst st,
   mk_DB (map (fun r => if same_id r (fst st) then fst st else r)
              (rows (snd st)))
         (next_id (snd st))).

(** [db.session.delete(self); db.session.commit()] *)
Definition session_delete (st : Promotion * DB) : Promotion * DB :=
  (fst st,
   mk_DB (List.filter (fun r => negb (same_id r (fst st))) (rows (snd st)))
         (next_id (snd st))).

(** [Promotion.create] *)
Definition create : M (Promotion * DB) unit :=
  do modify (fun st => (set_id None (fst st), snd st)) then
  let* st := get in
  if TypeOfPromo.eqb (category (fst st)) Discount && (amount (fst st) >? 100)
  then raise (DataValidationError "Discount cannot exceed 100%")
  else if amount (fst st) <=? 0
  then raise (DataValidationError "amount must be grater than 0")
  else modify session_add.

(** [Promotion.update] *)
Definition update : M (Promotion * DB) unit :=
  modify session_commit.

(** [Promotion.delete] *)
Definition delete : M (Promotion * DB) unit :=
  modify session_delete.

(** The system clock: [datetime.now()] answers the next reading. *)
Record Clock : Type := mk_Clock {
  readings : nat -> datetime;
  reads : nat
}.

Definition now : M Clock datetime :=
  fun c => (mk_Clock (readings c) (S (reads c)), Ok (readings c (reads c))).

(** A clock that stands still at [t] for the length of a call. *)
Definition frozen (c : Clock) (t : datetime) : Prop :=
  forall n, readings c n = t.

(** [Promotion.is_available] *)
Definition is_available (self : Promotion) : M Clock bool :=
  let* t1 := now in
  if DateTime.leb (from_date self) t1
  then (let* t2 := now in ret (DateTime.geb (to_date self) t2))
  else ret false.

(** ** Queries *)

(** A [Query] object: the criteria given to [filter] so far, the first
    one first, and whether every value bound in them has the type of
    its column.  Nothing is read before the query is executed; a value
    of another type is left to the store, which refuses the statement
    when it is executed. *)
Record Query : Type := mk_Query {
  criteria : list (Promotion -> bool);
  well_typed : bool
}.

(** [cls.query] *)
Definition query : Query := mk_Query [] true.

(** [q.filter(criterion)] *)
Definition filter_by (q : Query) (f : Promotion -> bool) : Query :=
  mk_Query (criteria q ++ [f]) (well_typed q).

Definition ill_typed (q : Query) : Query :=
  mk_Query (criteria q) false.

(** Executing a query, as iterating over it does. *)
Definition execute (q : Query) (db : DB) : outcome (list Promotion) :=
  if well_typed q
  then Ok (fold_left (fun l f => List.filter f l) (criteria q) (rows db))
  else Raise StatementError.

(** [Promotion.all] *)
Definition all : Query := query.

(** [Promotion.find_by_product_name] *)
Definition find_by_product_name (name : string) : Query :=
  filter_by query (fun r => String.eqb (product_name r) name).

(** [Promotion.find_by_product_id] *)
Definition find_by_product_id (pid : Z) : Query :=
  filter_by query (fun r => product_id r =? pid).

(** [Promotion.find_by_availability] *)
Definition find_by_availability (available : bool) : M Clock Query :=
  if available then
    let* t1 := now in
    let q := filter_by query (fun r => DateTime.leb (from_date r) t1) in
    let* t2 := now in
    ret (filter_by q (fun r => DateTime.geb (to_date r) t2))
  else
    let* t1 := now in
    let* t2 := now in
    ret (filter_by query
           (fun r => DateTime.gtb (from_date r) t1
                     || DateTime.ltb (to_date r) t2)).

(** *** The best promotion of a product *)

(** The benefit is a Python [float]; the model keeps the exact
    quotient.  Both agree on every comparison made here as long as the
    amounts fit the [Integer] column (32 bits): [amount / 100.] and
    [1. / amount] are then correctly rounded quotients of exactly
    represented operands, equal quotients round to the same [float] and
    different ones lie further apart than two neighbouring [float]s. *)
Definition discount_off (a : Z) : Q := inject_Z a / inject_Z 100.
Definition bogof_off (a : Z) : Q := 1 / inject_Z a.

(** The [if]/[elif] that assigns [off]: [off] is a local variable of
    the function, unbound ([None]) until a branch assigns it, and it
    keeps its value from one turn of the loop to the next. *)
Definition assign_off (promotion : Promotion) (off : option Q)
  : outcome (option Q) :=
  match category promotion with
  | Discount => Ok (Some (discount_off (amount promotion)))
  | BOGOF =>
      if amount promotion =? 0 then Raise ZeroDivisionError
      else Ok (Some (bogof_off (amount promotion)))
  | Unknown => Ok off
  end.

Definition Qgtb (x y : Q) : bool := negb (Qle_bool x y).

(** The [for] loop over [promotion_list]. *)
Fixpoint best_loop (promotion_list : list Promotion) (off : option Q)
         (max_off : Q) (best_promotion : option Promotion)
  : outcome (option Promotion) :=
  match promotion_list with
  | [] => Ok best_promotion
  | promotion :: rest =>
      match assign_off promotion off with
      | Raise e => Raise e
      | Ok None => Raise UnboundLocalError
      | Ok (Some o) =>
          if Qgtb o max_off
          then best_loop rest (Some o) o (Some promotion)
          else best_loop rest (Some o) max_off best_promotion
      end
  end.

(** [Promotion.find_best_promotion_for_product] *)
Definition find_best_promotion_for_product (pid : Z) (db : DB)
  : M Clock (option Promotion) :=
  let q := filter_by query (fun r => product_id r =? pid) in
  let* t1 := now in
  let q := filter_by q (fun r => DateTime.leb (from_date r) t1) in
  let* t2 := now in
  let promotions := filter_by q (fun r => DateTime.geb (to_date r) t2) in
  let* promotion_list := lift (execute promotions db) in
  lift (best_loop promotion_list None 0%Q None).

(** *** Conversions used by the finders *)

(** [s.split('.')[-1]]: what follows the last dot. *)
Fixpoint last_segment_from (cur s : string) : string :=
  match s with
  | EmptyString => cur
  | String c rest =>
      if DateTime.is_char c "." then last_segment_from "" rest
      else last_segment_from (cur ++ String c "") rest
  end.

Definition last_segment (s : string) : string := last_segment_from "" s.

Definition is_space (c : ascii) : bool :=
  let n := N_of_ascii c in
  (N.eqb n 32) || ((N.leb 9 n) && (N.leb n 13)).

Fixpoint lstrip (cs : list ascii) : list ascii :=
  match cs with
  | c :: rest => if is_space c then lstrip rest else cs
  | [] => []
  end.

Definition strip (cs : list ascii) : list ascii :=
  rev (lstrip (rev (lstrip cs))).

(** [int(s)] for a string: an optional sign and decimal digits, white
    space around them allowed.  Where this function answers [Some z],
    [int] returns [z] (for literals of fewer than 4300 digits).  [int]
    also reads underscores between digits and digits outside ASCII,
    which are left out here, so a property may rest on [None] only for
    the strings of [int_refuses] below. *)
Definition int_of_string (s : string) : option Z :=
  match strip (list_ascii_of_string s) with
  | [] => None
  | c :: rest =>
      if DateTime.is_char c "-" then
        match rest with
        | [] => None
        | _ => option_map Z.opp (DateTime.number rest)
        end
      else if DateTime.is_char c "+" then
        match rest with
        | [] => None
        | _ => DateTime.number rest
        end
      else DateTime.number (c :: rest)
  end.

(** [int(v)] *)
Definition py_int (v : value) : outcome Z :=
  match v with
  | VBool b => Ok (if b then 1 else 0)
  | VInt z => Ok z
  | VStr s =>
      match int_of_string s with
      | Some z => Ok z
      | None => Raise ValueError
      end
  | _ => Raise TypeError
  end.

(** [Promotion.find_by_category]: the category as a member or as a
    string such as ["TypeOfPromo.Unknown"]. *)
Definition find_by_category (category_arg : value) : outcome Query :=
  match category_arg with
  | VStr s =>
      match TypeOfPromo.getitem (last_segment s) with
      | Ok c => Ok (filter_by query (fun r => TypeOfPromo.eqb (category r) c))
      | Raise e => Raise e
      end
  | VEnum c => Ok (filter_by query (fun r => TypeOfPromo.eqb (category r) c))
  | _ => Raise (AttributeError "name")
  end.

(** *** The combined finder *)

(** ["key" in args and args["key"] is not None] *)
Definition supplied (args : gmap string value) (key : string) : option value :=
  match args !! key with
  | Some v => if is_none v then None else Some v
  | None => None
  end.

(** [Promotion.find_by_multi_attributes] *)
Definition find_by_multi_attributes (args : gmap string value)
  : M Clock Query :=
  let result := query in
  let* result :=
    match supplied args "category" with
    | Some (VStr s) =>
        let* c := lift (TypeOfPromo.getitem (last_segment s)) in
        ret (filter_by result (fun r => TypeOfPromo.eqb (category r) c))
    | Some (VEnum c) =>
        ret (filter_by result (fun r => TypeOfPromo.eqb (category r) c))
    | Some _ => ret (ill_typed result)
    | None => ret result
    end in
  let result :=
    match supplied args "product_name" with
    | Some (VStr s) =>
        filter_by result (fun r => String.eqb (product_name r) s)
    | Some _ => ill_typed result
    | None => result
    end in
  let result :=
    match supplied args "product_id" with
    | Some (VInt z) => filter_by result (fun r => product_id r =? z)
    | Some _ => ill_typed result
    | None => result
    end in
  let result :=
    match supplied args "from_date" with
    | Some (VDateTime t) =>
        filter_by result (fun r => DateTime.eqb (from_date r) t)
    | Some _ => ill_typed result
    | None => result
    end in
  let result :=
    match supplied args "to_date" with
    | Some (VDateTime t) =>
        filter_by result (fun r => DateTime.eqb (to_date r) t)
    | Some _ => ill_typed result
    | None => result
    end in
  match supplied args "available" with
  | Some v =>
      let* n := lift (py_int v) in
      if n >? 0 then
        let* t1 := now in
        let result :=
          filter_by result (fun r => DateTime.leb (from_date r) t1) in
        let* t2 := now in
        ret (filter_by result (fun r => DateTime.geb (to_date r) t2))
      else
        let* t1 := now in
        let* t2 := now in
        ret (filter_by result
               (fun r => DateTime.gtb (from_date r) t1
                         || DateTime.gtb t2 (to_date r)))
  | None => ret result
  end.


(** ** Running a finder *)

(** A finder builds a query; [run] executes it too, as the caller does
    when it iterates over the answer. *)
Definition run (finder : M Clock Query) (c : Clock) (db : DB)
  : outcome (list Promotion) :=
  match finder c with
  | (_, Ok q) => execute q db
  | (_, Raise e) => Raise e
  end.

(** ** Notions of the specification *)

(** The active window: [from_date <= t <= to_date]. *)
Definition active (t : datetime) (r : Promotion) : bool :=
  DateTime.leb (from_date r) t && DateTime.geb (to_date r) t.

(** The promotions considered for a product at an instant. *)
Definition candidate (pid : Z) (t : datetime) (r : Promotion) : bool :=
  (product_id r =? pid) && active t r.

(** The benefit of a promotion as the specification gives it, a
    hundredth of the amount for a discount and the inverse of the
    amount for a buy-[n]-get-one-free, and the promotions that have
    one. *)
Definition benefit (r : Promotion) : Q :=
  match category r with
  | Discount => (inject_Z (amount r) / inject_Z 100)%Q
  | BOGOF => (1 / inject_Z (amount r))%Q
  | Unknown => 0%Q
  end.

Definition rated (r : Promotion) : Prop :=
  category r = Discount \/ (category r = BOGOF /\ amount r <> 0).

Definition known (r : Promotion) : bool :=
  negb (TypeOfPromo.eqb (category r) Unknown).

(** The criteria of the combined finder, one conjunct for each. *)
Definition category_criterion (v : value) : option TypeOfPromo :=
  match v with
  | VEnum c => Some c
  | VStr s => TypeOfPromo.member_named (last_segment s)
  | _ => None
  end.

Definition meets_category (args : gmap string value) (r : Promotion) : bool :=
  match supplied args "category" with
  | Some v =>
      match category_criterion v with
      | Some c => TypeOfPromo.eqb (category r) c
      | None => false
      end
  | None => true
  end.

Definition meets_product_name (args : gmap string value) (r : Promotion)
  : bool :=
  match supplied args "product_name" with
  | Some (VStr s) => String.eqb (product_name r) s
  | Some _ => false
  | None => true
  end.

Definition meets_product_id (args : gmap string value) (r : Promotion)
  : bool :=
  match supplied args "product_id" with
  | Some (VInt z) => product_id r =? z
  | Some _ => false
  | None => true
  end.

Definition meets_from_date (args : gmap string value) (r : Promotion) : bool :=
  match supplied args "from_date" with
  | Some (VDateTime t) => DateTime.eqb (from_date r) t
  | Some _ => false
  | None => true
  end.

Definition meets_to_date (args : gmap string value) (r : Promotion) : bool :=
  match supplied args "to_date" with
  | Some (VDateTime t) => DateTime.eqb (to_date r) t
  | Some _ => false
  | None => true
  end.

(** The availability flag: [int(v) > 0]. *)
Definition flag (n : Z) : bool := n >? 0.

Definition meets_available (args : gmap string value) (t : datetime)
           (r : Promotion) : bool :=
  match supplied args "available" with
  | Some v =>
      match py_int v with
      | Ok n => Bool.eqb (active t r) (flag n)
      | Raise _ => false
      end
  | None => true
  end.

Definition meets (args : gmap string value) (t : datetime) (r : Promotion)
  : bool :=
  meets_category args r && meets_product_name args r
  && meets_product_id args r && meets_from_date args r
  && meets_to_date args r && meets_available args t r.

(** What [create] rejects. *)
Definition invalid (self : Promotion) : Prop :=
  amount self <= 0 \/ (category self = Discount /\ amount self > 100).

(** The keys that the combined finder reads. *)
Definition criteria_keys : list string :=
  ["category"; "product_name"; "product_id"; "from_date"; "to_date";
   "available"].

(** The dictionaries of criteria whose values have the types that the
    finder and the columns expect. *)
Definition accepted (args : gmap string value) : Prop :=
  (forall v, supplied args "category" = Some v ->
             exists c, category_criterion v = Some c)
  /\ (forall v, supplied args "product_name" = Some v -> exists s, v = VStr s)
  /\ (forall v, supplied args "product_id" = Some v -> exists z, v = VInt z)
  /\ (forall v, supplied args "from_date" = Some v ->
                exists t, v = VDateTime t)
  /\ (forall v, supplied args "to_date" = Some v -> exists t, v = VDateTime t)
  /\ (forall v, supplied args "available" = Some v ->
                exists n, py_int v = Ok n).

(** ** Further functions of the model *)

(** [Promotion.find]: [cls.query.get(by_id)], the row that has the
    primary key, or [None]. *)
Definition has_id (by_id : Z) (r : Promotion) : bool :=
  match id r with
  | Some i => i =? by_id
  | None => false
  end.

Definition find (by_id : Z) (db : DB) : option Promotion :=
  List.find (has_id by_id) (rows db).

(** The keys that [deserialize] reads, in the order in which it reads
    them. *)
Definition required_keys : list string :=
  ["product_name"; "category"; "product_id"; "amount"; "description";
   "from_date"; "to_date"].

(** What the store keeps true of the table: every row has a key, the
    keys are pairwise distinct and all below the next one to assign. *)
Definition keyed (db : DB) : Prop :=
  NoDup (map id (rows db))
  /\ forall r, In r (rows db) -> exists i, id r = Some i /\ i < next_id db.

(** The first two readings that a call takes from the clock. *)
Definition first_reading (c : Clock) : datetime := readings c (reads c).
Definition second_reading (c : Clock) : datetime := readings c (S (reads c)).

(** The window of a row against two readings: it has started at the
    first one and has not ended at the second one. *)
Definition in_window (c : Clock) (r : Promotion) : bool :=
  DateTime.leb (from_date r) (first_reading c)
  && DateTime.geb (to_date r) (second_reading c).

(** The rows that the best-promotion finder considers. *)
Definition considered (pid : Z) (c : Clock) (r : Promotion) : bool :=
  (product_id r =? pid) && in_window c r.

(** A buy-0-get-one-free. *)
Definition free_for_nothing (r : Promotion) : Prop :=
  category r = BOGOF /\ amount r = 0.

(** Strings without a dot. *)
Fixpoint no_dot (s : string) : bool :=
  match s with
  | EmptyString => true
  | String c rest => negb (DateTime.is_char c ".") && no_dot rest
  end.

(** A printable ASCII character that is neither a digit, a sign nor an
    underscore: no integer literal and no year contains one. *)
Definition plain_symbol (c : ascii) : bool :=
  let n := Z.of_N (N_of_ascii c) in
  (33 <=? n) && (n <=? 126)
  && negb ((48 <=? n) && (n <=? 57))
  && negb (n =? 43) && negb (n =? 45) && negb (n =? 95).

(** Strings in which no year can be read: fewer than four characters,
    or a plain symbol among the first four. *)
Definition unreadable_year (s : string) : bool :=
  match list_ascii_of_string s with
  | a :: b :: c :: d :: _ => existsb plain_symbol [a; b; c; d]
  | _ => true
  end.

(** Values that [int] certainly refuses, with the exception it raises. *)
Definition int_refuses (v : value) : option exn :=
  match v with
  | VStr s =>
      if String.eqb s "" || existsb plain_symbol (list_ascii_of_string s)
      then Some ValueError else None
  | VDateTime _ | VEnum _ | VList _ => Some TypeError
  | _ => None
  end.

(** ** Sample data

    Rows, request bodies and criteria on which the properties below are
    evaluated. *)

Definition new_year : datetime :=
  DateTime.mk_datetime 2024 1 1 0 0 0 0 eq_refl.
Definition new_year_eve : datetime :=
  DateTime.mk_datetime 2024 12 31 23 59 59 0 eq_refl.

(** A clock that stands still at [t]. *)
Definition still (t : datetime) : Clock := mk_Clock (fun _ => t) 0.

Definition spring : datetime := DateTime.mk_datetime 2024 4 1 12 0 0 0 eq_refl.
Definition summer : datetime := DateTime.mk_datetime 2024 7 1 12 0 0 0 eq_refl.

Definition tea : Promotion :=
  mk_Promotion (Some 1) "tea" Discount 7 30 None new_year new_year_eve.
Definition jam : Promotion :=
  mk_Promotion (Some 2) "jam" BOGOF 8 4 (Some "two for one") summer
               new_year_eve.

Definition mint : Promotion :=
  mk_Promotion (Some 3) "mint" BOGOF 7 4 None new_year new_year_eve.
Definition salt : Promotion :=
  mk_Promotion (Some 4) "salt" Unknown 7 5 None new_year new_year_eve.

Definition blank : attrs :=
  mk_attrs VNone VNone VNone VNone VNone VNone VNone VNone.

(** The record of the specification's scenario, with its two dates
    left to the caller. *)
Definition scenario (category_name : string) (from_s to_s : value)
  : gmap string value :=
  <["product_name" := VStr "x"]>
  (<["category" := VStr category_name]>
  (<["product_id" := VInt 1]>
  (<["amount" := VInt 5]>
  (<["description" := VNone]>
  (<["from_date" := from_s]>
  (<["to_date" := to_s]> ∅)))))).

Definition bogof_of_product_7 : gmap string value :=
  <["category" := VStr "TypeOfPromo.BOGOF"]>
  (<["product_id" := VInt 7]>
  (<["product_name" := VNone]> ∅)).

Definition available_minus_one : gmap string value :=
  <["available" := VInt (-1)]> ∅.

(** * Properties *)

(** ** Dates *)
Module DateTimeFacts.
Import DateTime.

Lemma check_true (b : bool) (H : b = true) : check b = Some H.
Proof.
  destruct b; [| discriminate H].
  simpl. f_equal. apply UIP_dec, Bool.bool_dec.
Qed.

Lemma make_fields (t : datetime) :
  make (year t) (month t) (day t) (hour t) (minute t) (second t)
       (microsecond t) = Some t.
Proof.
  destruct t as [y m d h mi s us H]. unfold make. simpl.
  rewrite (check_true _ H). reflexivity.
Qed.

Lemma fields_inj (a b : datetime) : fields a = fields b -> a = b.
Proof.
  destruct a as [y m d h mi s us H], b as [y' m' d' h' mi' s' us' H'].
  unfold fields. simpl. intros E.
  injection E as -> -> -> -> -> -> ->.
  f_equal. apply UIP_dec, Bool.bool_dec.
Qed.

Lemma lex_compare_eq (a b : list Z) : lex_compare a b = Eq -> a = b.
Proof.
  revert b. induction a as [| x a IH]; intros [| y b]; simpl;
    try discriminate; [reflexivity |].
  destruct (Z.compare_spec x y) as [-> | |]; try discriminate.
  intros E. f_equal. apply IH, E.
Qed.

Lemma lex_compare_refl (a : list Z) : lex_compare a a = Eq.
Proof.
  induction a as [| x a IH]; simpl; [reflexivity |].
  rewrite Z.compare_refl. exact IH.
Qed.

Lemma lex_compare_antisym (a b : list Z) :
  lex_compare b a = CompOpp (lex_compare a b).
Proof.
  revert b. induction a as [| x a IH]; intros [| y b]; simpl;
    try reflexivity.
  rewrite (Z.compare_antisym x y).
  destruct (x ?= y); simpl; auto.
Qed.

Lemma eqb_eq (a b : datetime) : eqb a b = true <-> a = b.
Proof.
  unfold eqb, compare. split.
  - destruct (lex_compare (fields a) (fields b)) eqn:E; try discriminate.
    intros _. apply fields_inj, lex_compare_eq, E.
  - intros ->. rewrite lex_compare_refl. reflexivity.
Qed.

(** [a > b] is the negation of [a <= b], and [a < b] that of [a >= b]. *)
Lemma gtb_negb_leb (a b : datetime) : gtb a b = negb (leb a b).
Proof. unfold gtb, leb. destruct (compare a b); reflexivity. Qed.

Lemma ltb_negb_geb (a b : datetime) : ltb a b = negb (geb a b).
Proof. unfold ltb, geb. destruct (compare a b); reflexivity. Qed.

(** [b < a] and [a > b] are the same comparison. *)
Lemma gtb_swap (a b : datetime) : gtb a b = ltb b a.
Proof.
  unfold gtb, ltb, compare.
  rewrite (lex_compare_antisym (fields a) (fields b)).
  destruct (lex_compare (fields a) (fields b)); reflexivity.
Qed.

Lemma geb_swap (a b : datetime) : geb a b = leb b a.
Proof.
  unfold geb, leb, compare.
  rewrite (lex_compare_antisym (fields a) (fields b)).
  destruct (lex_compare (fields a) (fields b)); reflexivity.
Qed.

(** *** Printing and reading decimal fields *)

Lemma digit_of_char_of_digit (d : Z) :
  0 <= d < 10 -> digit_of_char (char_of_digit d) = Some d.
Proof.
  intros H.
  assert (d = 0 \/ d = 1 \/ d = 2 \/ d = 3 \/ d = 4 \/ d = 5 \/ d = 6
          \/ d = 7 \/ d = 8 \/ d = 9) as E by lia.
  repeat (destruct E as [-> | E]; [reflexivity |]).
  subst d. reflexivity.
Qed.

Lemma number_from_app (acc : Z) (a b : list ascii) :
  number_from acc (a ++ b) =
  match number_from acc a with
  | Some v => number_from v b
  | None => None
  end.
Proof.
  unfold number_from. rewrite fold_left_app.
  destruct (fold_left _ a (Some acc)) as [v |]; [reflexivity |].
  induction b as [| c b IH]; simpl; [reflexivity | exact IH].
Qed.

Lemma number_from_digits (k : nat) :
  forall n acc, 0 <= n < 10 ^ Z.of_nat k ->
    number_from acc (digits k n) = Some (acc * 10 ^ Z.of_nat k + n).
Proof.
  induction k as [| k IH]; intros n acc H.
  - simpl in *. unfold number_from. simpl. f_equal. lia.
  - rewrite Nat2Z.inj_succ, Z.pow_succ_r in H by lia.
    cbn [digits]. rewrite number_from_app.
    rewrite IH by (split; [apply Z.div_pos; lia
                          | apply Z.div_lt_upper_bound; lia]).
    unfold number_from. cbn [fold_left].
    rewrite digit_of_char_of_digit by (apply Z.mod_pos_bound; lia).
    f_equal. rewrite Nat2Z.inj_succ, Z.pow_succ_r by lia.
    pose proof (Z.div_mod n 10 ltac:(lia)). lia.
Qed.

Lemma number_digits (k : nat) (n : Z) :
  0 <= n < 10 ^ Z.of_nat k -> number (digits k n) = Some n.
Proof.
  intros H. unfold number. rewrite number_from_digits by exact H.
  f_equal.
Qed.

Lemma in_range_bounds (t : datetime) :
  0 <= year t < 10 ^ 4 /\ 0 <= month t < 10 ^ 2 /\ 0 <= day t < 10 ^ 2
  /\ 0 <= hour t < 10 ^ 2 /\ 0 <= minute t < 10 ^ 2
  /\ 0 <= second t < 10 ^ 2 /\ 0 <= microsecond t < 10 ^ 6.
Proof.
  destruct t as [y m d h mi s us H]. simpl.
  unfold in_range in H.
  repeat (apply andb_prop in H; destruct H as [H ?]).
  assert (days_in_month y m <= 31).
  { unfold days_in_month.
    repeat match goal with |- context [if ?b then _ else _] =>
                             destruct b end; lia. }
  lia.
Qed.

(** [fromisoformat] reads back what [isoformat] writes. *)
Lemma fromisoformat_isoformat (t : datetime) :
  fromisoformat (isoformat t) = Some t.
Proof.
  destruct (in_range_bounds t) as (Hy & Hm & Hd & Hh & Hmi & Hs & Hus).
  pose proof (number_digits 4 (year t) Hy) as Ny.
  pose proof (number_digits 2 (month t) Hm) as Nm.
  pose proof (number_digits 2 (day t) Hd) as Nd.
  pose proof (number_digits 2 (hour t) Hh) as Nh.
  pose proof (number_digits 2 (minute t) Hmi) as Nmi.
  pose proof (number_digits 2 (second t) Hs) as Ns.
  pose proof (number_digits 6 (microsecond t) Hus) as Nus.
  unfold fromisoformat, isoformat.
  rewrite list_ascii_of_string_of_list_ascii.
  unfold isoformat_chars.
  cbn [digits app list_ascii_of_string] in *.
  change (is_char "-"%char "-") with true. cbn [andb].
  rewrite Ny, Nm, Nd.
  cbn [parse_time]. rewrite Nh.
  change (is_char ":"%char ":") with true. cbv iota.
  rewrite Nmi, Ns.
  destruct (microsecond t =? 0) eqn:E.
  - apply Z.eqb_eq in E. cbn [app].
    rewrite <- E. apply make_fields.
  - cbn [app list_ascii_of_string parse_fraction].
    change (is_char "."%char ".") with true. cbv iota.
    rewrite Nus. cbn [option_map]. apply make_fields.
Qed.

Lemma isoformat_nonempty (t : datetime) : isoformat t <> "".
Proof.
  unfold isoformat, isoformat_chars.
  cbn [digits app list_ascii_of_string string_of_list_ascii].
  discriminate.
Qed.

End DateTimeFacts.

(** ** Serialization *)
Section Serialization.

Lemma serialize_lookup (p : Promotion) :
  serialize p !! "product_name" = Some (VStr (product_name p))
  /\ serialize p !! "category" = Some (VStr (TypeOfPromo.name (category p)))
  /\ serialize p !! "product_id" = Some (VInt (product_id p))
  /\ serialize p !! "amount" = Some (VInt (amount p))
  /\ serialize p !! "description" = Some (of_option VStr (description p))
  /\ serialize p !! "from_date"
     = Some (VStr (DateTime.isoformat (from_date p)))
  /\ serialize p !! "to_date" = Some (VStr (DateTime.isoformat (to_date p)))
  /\ serialize p !! "id" = Some (of_option VInt (id p)).
Proof. unfold serialize. repeat split; by simplify_map_eq. Qed.

Lemma getattr_member_name (c : TypeOfPromo) :
  getattr_TypeOfPromo (VStr (TypeOfPromo.name c)) = Ok (VEnum c).
Proof. destruct c; reflexivity. Qed.

Lemma date_field_isoformat (t : datetime) :
  date_field (VStr (DateTime.isoformat t)) = Ok (VDateTime t).
Proof.
  unfold date_field, truthy.
  pose proof (DateTimeFacts.isoformat_nonempty t) as H.
  apply String.eqb_neq in H. rewrite H. simpl.
  rewrite DateTimeFacts.fromisoformat_isoformat. reflexivity.
Qed.

(** A body that is not a dictionary: the first subscript fails. *)
Lemma deserialize_not_dict (v : value) (self : attrs) :
  deserialize (NotDict v) self
  = (self,
     Raise (DataValidationError
              "Invalid Promotion: body of request contained bad or no data")).
Proof. reflexivity. Qed.

(** X7.  Every exception that leaves [deserialize] is a
    [DataValidationError] or the [ValueError] of [fromisoformat]: no
    [KeyError], [TypeError] or [AttributeError] reaches the caller. *)
Lemma deserialize_raises (data : body) (self : attrs) (e : exn) :
  snd (deserialize data self) = Raise e ->
  e = ValueError \/ exists msg, e = DataValidationError msg.
Proof.
  unfold deserialize, catch.
  destruct (deserialize_try data self) as [a [u | e0]] eqn:E;
    simpl; [discriminate |].
  intros [= <-].
  assert (e0 = ValueError \/ e0 = TypeError
          \/ (exists k, e0 = KeyError k)
          \/ (exists n, e0 = AttributeError n)) as He0.
  { revert E. unfold deserialize_try, bind, lift, modify.
    repeat match goal with
    | |- context [subscript data ?k] =>
        let o := fresh "o" in
        destruct (subscript data k) as [? | ?] eqn:o;
        [| unfold subscript in o; destruct data;
           [ destruct (_ !! _); [discriminate o |];
             injection o as <-; intros [= _ <-]; eauto 6
           | injection o as <-; intros [= _ <-]; eauto ] ]
    | |- context [getattr_TypeOfPromo ?v] =>
        let o := fresh "o" in
        destruct (getattr_TypeOfPromo v) as [? | ?] eqn:o;
        [| unfold getattr_TypeOfPromo in o;
           repeat match type of o with
                  | context [match ?x with _ => _ end] => destruct x
                  end;
           try discriminate o;
           injection o as <-; intros [= _ <-]; eauto 6 ]
    | |- context [date_field ?v] =>
        let o := fresh "o" in
        destruct (date_field v) as [? | ?] eqn:o;
        [| unfold date_field in o;
           repeat match type of o with
                  | context [match ?x with _ => _ end] => destruct x
                  end;
           try discriminate o;
           injection o as <-; intros [= _ <-]; eauto ]
    end.
    discriminate. }
  destruct He0 as [-> | [-> | [[k ->] | [n ->]]]]; simpl; eauto.
Qed.

End Serialization.

(** ** Claims on the serialization codec *)
Section Codec.

Example deserialize_bogus_category :
  snd (deserialize
         (Dict (scenario "Bogus" (VStr "2024-01-01T00:00:00")
                         (VStr "2024-02-01T00:00:00"))) blank)
  = Raise (DataValidationError "Invalid attribute: Bogus").
Proof. reflexivity. Qed.

Example deserialize_missing_product_id :
  snd (deserialize
         (Dict (base.delete "product_id"
                  (scenario "BOGOF" (VStr "2024-01-01T00:00:00")
                            (VStr "2024-02-01T00:00:00")))) blank)
  = Raise (DataValidationError "Invalid Promotion: missing product_id").
Proof. reflexivity. Qed.

(** A category string that names an attribute of the class other than
    a member is accepted: [getattr] finds the attribute. *)
Example deserialize_class_attribute :
  deserialize
    (Dict (scenario "__members__" (VStr "2024-01-01") VNone)) blank
  = (mk_attrs VNone (VStr "x") (VClassAttr "__members__") (VInt 1)
              (VInt 5) VNone
              (VDateTime (DateTime.mk_datetime 2024 1 1 0 0 0 0 eq_refl))
              VNone,
     Ok tt).
Proof. reflexivity. Qed.

(** C3.  A date string that [fromisoformat] rejects makes [deserialize]
    raise [ValueError]: no [except] clause stands for it, so the
    exception leaves the method as it is, where the claim has a
    [DataValidationError] saying "bad or no data". *)
Theorem deserialize_malformed_date_escapes :
  snd (deserialize
         (Dict (scenario "Discount" (VStr "01/02/2024")
                         (VStr "2024-02-01T00:00:00"))) blank)
  = Raise ValueError.
Proof. reflexivity. Qed.

(** C4.  Round trip: deserializing what [serialize] writes for a row
    [p] gives every attribute the value it has in [p], the dates
    included, and leaves [id] as the receiving instance had it. *)
Theorem deserialize_serialize (self : attrs) (p : Promotion) :
  deserialize (Dict (serialize p)) self
  = (set_a_id (a_id self) (attrs_of p), Ok tt).
Proof.
  destruct (serialize_lookup p) as (Hn & Hc & Hp & Ha & Hd & Hf & Ht & _).
  unfold deserialize, catch, deserialize_try, bind, lift, modify, subscript.
  rewrite Hn, Hc, getattr_member_name, Hp, Ha, Hd, Hf,
    date_field_isoformat, Ht, date_field_isoformat.
  reflexivity.
Qed.

End Codec.

(** ** Claims on the life cycle *)
Section Lifecycle.

Lemma TypeOfPromo_eqb_eq (a b : TypeOfPromo) :
  TypeOfPromo.eqb a b = true <-> a = b.
Proof. destruct a, b; simpl; split; (reflexivity || discriminate). Qed.

Lemma create_cases (self : Promotion) (db : DB) :
  (invalid self /\ exists msg,
      create (self, db)
      = ((set_id None self, db), Raise (DataValidationError msg)))
  \/ (~ invalid self /\
      create (self, db)
      = ((set_id (Some (next_id db)) self,
          mk_DB (rows db ++ [set_id (Some (next_id db)) self])
                (next_id db + 1)),
         Ok tt)).
Proof.
  unfold create, bind, modify, get, raise, invalid. cbn [fst snd].
  change (category (set_id None self)) with (category self).
  change (amount (set_id None self)) with (amount self).
  destruct (TypeOfPromo.eqb (category self) Discount) eqn:Ec;
    destruct (Z.gtb_spec (amount self) 100) as [Ea | Ea]; cbn [andb].
  1: { apply TypeOfPromo_eqb_eq in Ec. left.
       split; [right; split; [exact Ec | lia] | eauto]. }
  all: destruct (Z.leb_spec (amount self) 0) as [Ez | Ez].
  all: try (left; split; [left; lia | eauto]; fail).
  all: right; split; [| reflexivity]; intros [H | [H1 H2]]; try lia.
  rewrite H1 in Ec. discriminate.
Qed.

(** C2.  [create] raises a [DataValidationError] exactly when the
    amount is not positive or a discount exceeds 100; otherwise it
    succeeds, the row is appended to the table under the key the store
    assigns, and the instance carries that key. *)
Theorem create_validates (self : Promotion) (db : DB) :
  ((exists msg, snd (create (self, db)) = Raise (DataValidationError msg))
   <-> amount self <= 0 \/ (category self = Discount /\ amount self > 100))
  /\ (~ (amount self <= 0 \/ (category self = Discount /\ amount self > 100))
      -> snd (create (self, db)) = Ok tt
         /\ fst (fst (create (self, db))) = set_id (Some (next_id db)) self
         /\ rows (snd (fst (create (self, db))))
            = (rows db ++ [set_id (Some (next_id db)) self])%list).
Proof.
  fold (invalid self).
  destruct (create_cases self db) as [[Hi [msg E]] | [Hv E]]; rewrite E;
    cbn [fst snd rows].
  - split; [split; eauto | intros H; contradiction].
  - split; [split; [intros [msg H]; discriminate H | contradiction] |].
    intros _. repeat split.
Qed.

Lemma create_validates_witness :
  snd (create (mk_Promotion None "tea" BOGOF 7 3 None new_year new_year_eve,
               mk_DB [] 1)) = Ok tt
  /\ rows (snd (fst (create
             (mk_Promotion None "tea" BOGOF 7 3 None new_year new_year_eve,
              mk_DB [] 1))))
     = [mk_Promotion (Some 1) "tea" BOGOF 7 3 None new_year new_year_eve].
Proof.
  destruct (create_validates
              (mk_Promotion None "tea" BOGOF 7 3 None new_year new_year_eve)
              (mk_DB [] 1)) as [_ H].
  destruct H as (H1 & _ & H3).
  - simpl. intros [H | [H _]]; [lia | discriminate H].
  - split; [exact H1 | exact H3].
Defined.

(** C10.  When [create] raises, the table is what it was, and the
    instance has lost its [id]: the assignment [self.id = None]
    precedes the checks. *)
Theorem create_failure_keeps_store (self : Promotion) (db : DB) (e : exn) :
  snd (create (self, db)) = Raise e ->
  snd (fst (create (self, db))) = db
  /\ fst (fst (create (self, db))) = set_id None self
  /\ id (fst (fst (create (self, db)))) = None.
Proof.
  destruct (create_cases self db) as [[_ [msg E]] | [_ E]]; rewrite E;
    cbn [fst snd]; [auto | discriminate].
Qed.

Lemma create_failure_keeps_store_witness :
  snd (fst (create
         (mk_Promotion (Some 7) "tea" Discount 7 101 None
                       new_year new_year_eve,
          mk_DB [] 1))) = mk_DB [] 1
  /\ id (fst (fst (create
         (mk_Promotion (Some 7) "tea" Discount 7 101 None
                       new_year new_year_eve,
          mk_DB [] 1)))) = None.
Proof.
  destruct (create_failure_keeps_store
              (mk_Promotion (Some 7) "tea" Discount 7 101 None
                            new_year new_year_eve)
              (mk_DB [] 1)
              (DataValidationError "Discount cannot exceed 100%")
              eq_refl) as (H1 & _ & H3).
  split; [exact H1 | exact H3].
Defined.

Lemma same_id_true (r self : Promotion) :
  same_id r self = true <-> id r = id self /\ id self <> None.
Proof.
  unfold same_id. destruct (id r) as [i |], (id self) as [j |];
    try (split; [discriminate | intros [H1 H2]; congruence]).
  rewrite Z.eqb_eq. split.
  - intros ->. split; [reflexivity | discriminate].
  - intros [[= ->] _]. reflexivity.
Qed.

(** C9.  [update] checks nothing: whatever the field values, it
    returns normally, and the row that has the key of the instance
    holds the instance's current values afterwards, every other row
    being left as it was. *)
Theorem update_does_not_validate (self : Promotion) (db : DB) :
  snd (update (self, db)) = Ok tt
  /\ fst (fst (update (self, db))) = self
  /\ length (rows (snd (fst (update (self, db))))) = length (rows db)
  /\ forall n r, nth_error (rows db) n = Some r ->
       nth_error (rows (snd (fst (update (self, db))))) n
       = Some (if same_id r self then self else r).
Proof.
  unfold update, modify, session_commit. cbn [fst snd rows].
  repeat split.
  - apply length_map.
  - intros n r H. rewrite nth_error_map, H. reflexivity.
Qed.

Lemma update_does_not_validate_witness :
  nth_error
    (rows (snd (fst (update
       (mk_Promotion (Some 1) "tea" Discount 7 150 None new_year
                     new_year_eve,
        mk_DB [tea; jam] 3))))) 0
  = Some (mk_Promotion (Some 1) "tea" Discount 7 150 None new_year
                       new_year_eve).
Proof.
  destruct (update_does_not_validate
              (mk_Promotion (Some 1) "tea" Discount 7 150 None new_year
                            new_year_eve)
              (mk_DB [tea; jam] 3)) as (_ & _ & _ & H).
  exact (H 0%nat tea eq_refl).
Defined.

(** A stored discount driven to 150 percent: [update] writes it,
    [create] would have refused it. *)
Example update_invalid_amount :
  let stored := mk_Promotion (Some 1) "tea" Discount 7 30 None
                             new_year new_year_eve in
  let self := mk_Promotion (Some 1) "tea" Discount 7 150 None
                           new_year new_year_eve in
  update (self, mk_DB [stored] 2) = ((self, mk_DB [self] 2), Ok tt)
  /\ snd (create (self, mk_DB [stored] 2))
     = Raise (DataValidationError "Discount cannot exceed 100%").
Proof. split; reflexivity. Qed.

End Lifecycle.

(** ** Queries *)
Section Queries.

Lemma filter_andb {A} (f g : A -> bool) (l : list A) :
  List.filter g (List.filter f l) = List.filter (fun x => f x && g x) l.
Proof.
  induction l as [| x l IH]; simpl; [reflexivity |].
  destruct (f x) eqn:Ef; simpl; [| exact IH].
  destruct (g x); simpl; [f_equal |]; exact IH.
Qed.

(** Executing a query keeps the rows that meet every criterion, in
    the order of the table. *)
Lemma fold_filter (fs : list (Promotion -> bool)) :
  forall l,
    fold_left (fun l f => List.filter f l) fs l
    = List.filter (fun r => forallb (fun f => f r) fs) l.
Proof.
  induction fs as [| f fs IH]; intros l; simpl.
  - symmetry. apply filter_true.
  - rewrite IH. apply filter_andb.
Qed.

Lemma execute_filter (fs : list (Promotion -> bool)) (db : DB) :
  execute (mk_Query fs true) db
  = Ok (List.filter (fun r => forallb (fun f => f r) fs) (rows db)).
Proof. unfold execute. simpl. f_equal. apply fold_filter. Qed.

Lemma filter_complement {A} (f : A -> bool) (l : list A) :
  Permutation (List.filter f l ++ List.filter (fun x => negb (f x)) l) l.
Proof.
  induction l as [| x l IH]; simpl; [constructor |].
  destruct (f x); simpl.
  - constructor. exact IH.
  - rewrite <- Permutation_middle. constructor. exact IH.
Qed.

Variables (c : Clock) (t : datetime).
Hypothesis Hfrozen : frozen c t.

Lemma now_frozen (k : nat) :
  now (mk_Clock (readings c) k) = (mk_Clock (readings c) (S k), Ok t).
Proof. unfold now. simpl. rewrite Hfrozen. reflexivity. Qed.

Lemma now_frozen0 : now c = (mk_Clock (readings c) (S (reads c)), Ok t).
Proof. unfold now. rewrite Hfrozen. reflexivity. Qed.

Lemma run_available (db : DB) :
  run (find_by_availability true) c db
  = Ok (List.filter (active t) (rows db)).
Proof.
  unfold run, find_by_availability, bind, ret.
  rewrite now_frozen0, now_frozen.
  unfold filter_by, query. simpl app. rewrite execute_filter.
  f_equal. apply filter_ext. intros r. unfold active. simpl.
  rewrite andb_true_r. reflexivity.
Qed.

Lemma run_unavailable (db : DB) :
  run (find_by_availability false) c db
  = Ok (List.filter (fun r => negb (active t r)) (rows db)).
Proof.
  unfold run, find_by_availability, bind, ret.
  rewrite now_frozen0, now_frozen.
  unfold filter_by, query. simpl app. rewrite execute_filter.
  f_equal. apply filter_ext. intros r. unfold active. simpl.
  rewrite andb_true_r, negb_andb,
    DateTimeFacts.gtb_negb_leb, DateTimeFacts.ltb_negb_geb.
  reflexivity.
Qed.

Lemma find_best_frozen (pid : Z) (db : DB) :
  snd (find_best_promotion_for_product pid db c)
  = best_loop (List.filter (candidate pid t) (rows db)) None 0%Q None.
Proof.
  unfold find_best_promotion_for_product, bind, lift.
  rewrite now_frozen0, now_frozen.
  unfold filter_by, query. simpl app. rewrite execute_filter.
  simpl. f_equal. apply filter_ext. intros r.
  unfold candidate, active. rewrite andb_true_r, andb_assoc. reflexivity.
Qed.

End Queries.

(** ** Claims on availability *)
Section Availability.

(** C8.  At one instant [t], the finder by availability splits the
    table: asked for the available rows it yields those with
    [from_date <= t] and [to_date >= t], asked for the others it
    yields those with [from_date > t] or [to_date < t], and every row
    is in exactly one of the two answers. *)
Theorem availability_complement (c : Clock) (t : datetime) (db : DB) :
  frozen c t ->
  exists yes no,
    run (find_by_availability true) c db = Ok yes
    /\ run (find_by_availability false) c db = Ok no
    /\ (forall r, In r yes <->
                  In r (rows db)
                  /\ DateTime.leb (from_date r) t = true
                  /\ DateTime.geb (to_date r) t = true)
    /\ (forall r, In r no <->
                  In r (rows db)
                  /\ (DateTime.gtb (from_date r) t = true
                      \/ DateTime.ltb (to_date r) t = true))
    /\ (forall r, In r (rows db) -> (In r yes <-> ~ In r no))
    /\ Permutation (yes ++ no) (rows db).
Proof.
  intros Hc.
  exists (List.filter (active t) (rows db)),
         (List.filter (fun r => negb (active t r)) (rows db)).
  split; [apply run_available, Hc |].
  split; [apply run_unavailable, Hc |].
  repeat split.
  - apply filter_In in H. tauto.
  - apply filter_In in H. destruct H as [_ H].
    apply andb_prop in H. tauto.
  - apply filter_In in H. destruct H as [_ H].
    apply andb_prop in H. tauto.
  - intros (H1 & H2 & H3). apply filter_In. unfold active.
    rewrite H2, H3. tauto.
  - apply filter_In in H. tauto.
  - apply filter_In in H. destruct H as [_ H]. unfold active in H.
    rewrite negb_andb in H. apply orb_prop in H.
    rewrite DateTimeFacts.gtb_negb_leb, DateTimeFacts.ltb_negb_geb.
    exact H.
  - intros [H1 H2]. apply filter_In. split; [exact H1 |].
    unfold active. rewrite negb_andb.
    rewrite DateTimeFacts.gtb_negb_leb, DateTimeFacts.ltb_negb_geb in H2.
    destruct H2 as [-> | ->]; [reflexivity | apply orb_true_r].
  - intros H1 H2. apply filter_In in H1, H2.
    destruct H1 as [_ H1], H2 as [_ H2]. rewrite H1 in H2. discriminate.
  - intros H1. apply filter_In. split; [exact H |].
    destruct (active t r) eqn:E; [reflexivity |].
    exfalso. apply H1. apply filter_In. rewrite E. tauto.
  - apply filter_complement.
Qed.

Lemma availability_complement_witness :
  exists yes no,
    run (find_by_availability true) (still spring) (mk_DB [tea; jam] 3)
    = Ok yes
    /\ run (find_by_availability false) (still spring) (mk_DB [tea; jam] 3)
       = Ok no
    /\ yes = [tea] /\ no = [jam].
Proof.
  destruct (availability_complement (still spring) spring
              (mk_DB [tea; jam] 3) (fun n => eq_refl))
    as (yes & no & Hy & Hn & _).
  exists yes, no. repeat split; [exact Hy | exact Hn | |].
  - vm_compute in Hy. injection Hy as <-. reflexivity.
  - vm_compute in Hn. injection Hn as <-. reflexivity.
Defined.

End Availability.

(** ** Claims on the best promotion *)
Section BestPromotion.

Lemma Qgtb_true (x y : Q) : Qgtb x y = true <-> (y < x)%Q.
Proof.
  unfold Qgtb. rewrite negb_true_iff, <- not_true_iff_false, Qle_bool_iff.
  split; [apply Qnot_le_lt | apply Qlt_not_le].
Qed.

Lemma Qgtb_false (x y : Q) : Qgtb x y = false <-> (x <= y)%Q.
Proof. unfold Qgtb. rewrite negb_false_iff. apply Qle_bool_iff. Qed.

Lemma assign_off_rated (r : Promotion) (off : option Q) :
  rated r -> assign_off r off = Ok (Some (benefit r)).
Proof.
  unfold rated, assign_off, benefit.
  intros [-> | [-> H]]; [reflexivity |].
  apply Z.eqb_neq in H. rewrite H. reflexivity.
Qed.

(** The loop, started with any running maximum [m] and any best so
    far [b], over promotions that all have a benefit. *)
Lemma best_loop_rated (l : list Promotion) :
  forall off m b,
    Forall rated l ->
    exists res,
      best_loop l off m b = Ok res
      /\ ((res = b /\ Forall (fun r => (benefit r <= m)%Q) l)
          \/ exists l1 p l2,
              l = (l1 ++ p :: l2)%list /\ res = Some p
              /\ (m < benefit p)%Q
              /\ Forall (fun r => (benefit r < benefit p)%Q) l1
              /\ Forall (fun r => (benefit r <= benefit p)%Q) l2).
Proof.
  induction l as [| r l IH]; intros off m b Hl.
  - exists b. split; [reflexivity |]. left. split; [reflexivity | constructor].
  - inversion Hl as [| ? ? Hr Hl']; subst.
    cbn [best_loop]. rewrite (assign_off_rated r off Hr).
    destruct (Qgtb (benefit r) m) eqn:E.
    + apply Qgtb_true in E.
      destruct (IH (Some (benefit r)) (benefit r) (Some r) Hl')
        as (res & Hres & [[-> Hall] | (l1 & p & l2 & -> & -> & Hp & H1 & H2)]).
      * exists (Some r). split; [exact Hres |]. right.
        exists [], r, l. repeat split; [exact E | constructor | exact Hall].
      * exists (Some p). split; [exact Hres |]. right.
        exists (r :: l1), p, l2. repeat split.
        -- eapply Qlt_trans; eassumption.
        -- constructor; assumption.
        -- exact H2.
    + apply Qgtb_false in E.
      destruct (IH (Some (benefit r)) m b Hl')
        as (res & Hres & [[-> Hall] | (l1 & p & l2 & -> & -> & Hp & H1 & H2)]).
      * exists b. split; [exact Hres |]. left.
        split; [reflexivity | constructor; assumption].
      * exists (Some p). split; [exact Hres |]. right.
        exists (r :: l1), p, l2. repeat split.
        -- exact Hp.
        -- constructor; [| exact H1]. eapply Qle_lt_trans; eassumption.
        -- exact H2.
Qed.

(** C1.  A promotion of category [Unknown] passes the checks of
    [create] and is stored; when it is the only promotion considered
    for its product, no candidate has a benefit above 0 and the claim
    has the finder return nothing, but the comparison meets [off]
    unbound and the finder stops with [UnboundLocalError]. *)
Theorem unknown_candidate_stops_the_finder :
  create (mk_Promotion None "salt" Unknown 7 5 None new_year new_year_eve,
          mk_DB [] 4)
  = ((salt, mk_DB [salt] 5), Ok tt)
  /\ List.filter (candidate 7 spring) (rows (mk_DB [salt] 5)) = [salt]
  /\ category salt = Unknown
  /\ snd (find_best_promotion_for_product 7 (mk_DB [salt] 5) (still spring))
     = Raise UnboundLocalError.
Proof. repeat split. Qed.

(** X24.  At the instant [t], the promotions considered are the rows of
    the product whose window contains [t], in the order of the table.
    When each of them is a discount or a buy-[n]-get-one-free with
    [n <> 0], and the amounts fit a 32-bit [Integer] column (where the
    comparisons of the code's floats are those of the exact
    quotients), the finder returns: nothing, if none has a benefit
    above 0; otherwise the first of those with the greatest benefit,
    the benefit being [amount / 100] for a discount and [1 / amount]
    for the other. *)
Theorem first_maximum_on_rated_candidates
        (pid : Z) (db : DB) (c : Clock) (t : datetime) :
  frozen c t ->
  Forall rated (List.filter (candidate pid t) (rows db)) ->
  Forall (fun r => Z.abs (amount r) < 2 ^ 31)
         (List.filter (candidate pid t) (rows db)) ->
  (forall r, In r (List.filter (candidate pid t) (rows db)) <->
             In r (rows db) /\ product_id r = pid
             /\ DateTime.leb (from_date r) t = true
             /\ DateTime.geb (to_date r) t = true)
  /\ exists res,
      snd (find_best_promotion_for_product pid db c) = Ok res
      /\ ((res = None
           /\ Forall (fun r => (benefit r <= 0)%Q)
                     (List.filter (candidate pid t) (rows db)))
          \/ exists l1 p l2,
              List.filter (candidate pid t) (rows db) = (l1 ++ p :: l2)%list
              /\ res = Some p
              /\ (0 < benefit p)%Q
              /\ Forall (fun r => (benefit r < benefit p)%Q) l1
              /\ Forall (fun r => (benefit r <= benefit p)%Q) l2).
Proof.
  intros Hc Hr _. split.
  - intros r. rewrite filter_In. unfold candidate, active.
    rewrite !andb_true_iff, Z.eqb_eq. tauto.
  - rewrite (find_best_frozen c t Hc).
    apply best_loop_rated, Hr.
Qed.

Lemma first_maximum_on_rated_candidates_witness :
  exists res,
    snd (find_best_promotion_for_product 7 (mk_DB [jam; mint; tea] 5)
           (still spring)) = Ok res
    /\ res = Some tea.
Proof.
  assert (List.filter (candidate 7 spring) (rows (mk_DB [jam; mint; tea] 5))
          = [mint; tea]) as E by reflexivity.
  destruct (first_maximum_on_rated_candidates 7 (mk_DB [jam; mint; tea] 5)
              (still spring) spring (fun n => eq_refl)) as [_ H].
  - rewrite E.
    constructor; [right; split; [reflexivity | discriminate] |].
    constructor; [left; reflexivity | constructor].
  - rewrite E. repeat constructor.
  - destruct H as (res & Hres & _). exists res. split; [exact Hres |].
    vm_compute in Hres. injection Hres as <-. reflexivity.
Defined.

(** The comparisons of the specification's examples. *)
Example half_off_beats_buy_three :
  best_loop [mk_Promotion (Some 1) "a" BOGOF 7 3 None new_year new_year_eve;
             mk_Promotion (Some 2) "b" Discount 7 50 None new_year
                          new_year_eve] None 0%Q None
  = Ok (Some (mk_Promotion (Some 2) "b" Discount 7 50 None new_year
                           new_year_eve)).
Proof. reflexivity. Qed.

Example buy_two_beats_fifth_off :
  best_loop [mk_Promotion (Some 1) "a" BOGOF 7 2 None new_year new_year_eve;
             mk_Promotion (Some 2) "b" Discount 7 20 None new_year
                          new_year_eve] None 0%Q None
  = Ok (Some (mk_Promotion (Some 1) "a" BOGOF 7 2 None new_year
                           new_year_eve)).
Proof. reflexivity. Qed.

(** Equal benefits: the first one met stays. *)
Example tie_keeps_the_first :
  best_loop [mk_Promotion (Some 1) "a" BOGOF 7 2 None new_year new_year_eve;
             mk_Promotion (Some 2) "b" Discount 7 50 None new_year
                          new_year_eve] None 0%Q None
  = Ok (Some (mk_Promotion (Some 1) "a" BOGOF 7 2 None new_year
                           new_year_eve)).
Proof. reflexivity. Qed.

(** A buy-0-get-one-free, which [update] can write, stops the finder. *)
Example zero_amount_divides_by_zero :
  best_loop [mk_Promotion (Some 1) "a" BOGOF 7 0 None new_year new_year_eve]
            None 0%Q None
  = Raise ZeroDivisionError.
Proof. reflexivity. Qed.

(** *** Promotions of category [Unknown] *)

Lemma known_true (r : Promotion) : known r = true <-> category r <> Unknown.
Proof. unfold known. destruct (category r); simpl; split; congruence. Qed.

(** Once [off] is bound, a promotion of category [Unknown] is compared
    with the value left by an earlier turn, which the running maximum
    has already reached: the loop passes over it. *)
Lemma best_loop_skips_unknown (l : list Promotion) :
  forall o m b,
    (o <= m)%Q ->
    best_loop l (Some o) m b = best_loop (List.filter known l) (Some o) m b.
Proof.
  induction l as [| r l IH]; intros o m b Hle; [reflexivity |].
  cbn [List.filter]. destruct (known r) eqn:Ek.
  - cbn [best_loop].
    destruct (assign_off r (Some o)) as [[o' |] | e]; try reflexivity.
    destruct (Qgtb o' m) eqn:E.
    + apply IH, Qle_refl.
    + apply IH, Qgtb_false, E.
  - assert (category r = Unknown) as Ec.
    { destruct (category r) eqn:Ec; try reflexivity;
        unfold known in Ek; rewrite Ec in Ek; discriminate Ek. }
    cbn [best_loop]. unfold assign_off. rewrite Ec.
    apply Qgtb_false in Hle. rewrite Hle. apply IH.
    apply Qgtb_false, Hle.
Qed.

Lemma best_loop_bound (l : list Promotion) :
  forall o m b, best_loop l (Some o) m b <> Raise UnboundLocalError.
Proof.
  induction l as [| r l IH]; intros o m b; cbn [best_loop];
    [discriminate |].
  unfold assign_off.
  destruct (category r); try destruct (amount r =? 0); try discriminate;
    match goal with |- context [Qgtb ?x ?y] => destruct (Qgtb x y) end;
    apply IH.
Qed.

(** The first turn of the loop, [off] being unbound. *)
Lemma best_loop_first (r : Promotion) (l : list Promotion) :
  (category r = Unknown
   /\ best_loop (r :: l) None 0%Q None = Raise UnboundLocalError)
  \/ (category r <> Unknown
      /\ best_loop (r :: l) None 0%Q None <> Raise UnboundLocalError
      /\ best_loop (r :: l) None 0%Q None
         = best_loop (List.filter known (r :: l)) None 0%Q None).
Proof.
  destruct (category r) eqn:Ec; [right | right | left];
    try (split; [discriminate |]).
  3: { split; [reflexivity |]. cbn [best_loop]. unfold assign_off.
       rewrite Ec. reflexivity. }
  all: assert (known r = true) as Ek by (unfold known; rewrite Ec; reflexivity).
  all: cbn [List.filter]; rewrite Ek; cbn [best_loop].
  all: unfold assign_off; rewrite Ec.
  2: destruct (amount r =? 0); [split; [discriminate | reflexivity] |].
  all: match goal with |- context [Qgtb ?x ?y] =>
                         destruct (Qgtb x y) eqn:E end.
  all: split; [apply best_loop_bound |].
  all: apply best_loop_skips_unknown;
    [apply Qle_refl || (apply Qgtb_false, E) ..].
Qed.

Lemma filter_known_candidates (pid : Z) (t : datetime) (l : list Promotion) :
  List.filter (candidate pid t) (List.filter known l)
  = List.filter known (List.filter (candidate pid t) l).
Proof.
  rewrite !filter_andb. apply filter_ext. intros r. apply andb_comm.
Qed.

(** C7, as the code has it.  The comparison meets an unbound [off], and
    the finder stops with [UnboundLocalError], exactly when the first
    promotion considered has category [Unknown].  When the first one
    is a discount or a buy-[n]-get-one-free, a later promotion of
    category [Unknown] is compared with the benefit of the promotion
    before it and never becomes the best: the answer is the one
    obtained from the table without its [Unknown] rows. *)
Theorem unbound_iff_first_unknown
        (pid : Z) (db : DB) (c : Clock) (t : datetime) :
  frozen c t ->
  (snd (find_best_promotion_for_product pid db c) = Raise UnboundLocalError
   <-> exists r l,
        List.filter (candidate pid t) (rows db) = r :: l
        /\ category r = Unknown)
  /\ ((exists r l,
         List.filter (candidate pid t) (rows db) = r :: l
         /\ category r <> Unknown) ->
      snd (find_best_promotion_for_product pid db c)
      = snd (find_best_promotion_for_product pid
               (mk_DB (List.filter known (rows db)) (next_id db)) c)).
Proof.
  intros Hc. rewrite !(find_best_frozen c t Hc). cbn [rows].
  rewrite filter_known_candidates.
  destruct (List.filter (candidate pid t) (rows db)) as [| r l].
  - split; [split |].
    + discriminate.
    + intros (r & l & H & _). discriminate H.
    + intros (r & l & H & _). discriminate H.
  - destruct (best_loop_first r l) as [[Hu E] | (Hk & Hb & E)].
    + split; [split |].
      * intros _. exists r, l. split; [reflexivity | exact Hu].
      * intros _. exact E.
      * intros (r' & l' & [= <- <-] & H). contradiction.
    + split; [split |].
      * intros H. contradiction.
      * intros (r' & l' & [= <- <-] & H). contradiction.
      * intros _. exact E.
Qed.

Lemma unbound_iff_first_unknown_witness :
  snd (find_best_promotion_for_product 7 (mk_DB [salt; tea] 5)
         (still spring)) = Raise UnboundLocalError
  /\ snd (find_best_promotion_for_product 7 (mk_DB [tea; salt; mint] 5)
            (still spring))
     = snd (find_best_promotion_for_product 7 (mk_DB [tea; mint] 5)
              (still spring)).
Proof.
  split.
  - apply (unbound_iff_first_unknown 7 (mk_DB [salt; tea] 5)
             (still spring) spring (fun n => eq_refl)).
    exists salt, [tea]. split; reflexivity.
  - apply (unbound_iff_first_unknown 7 (mk_DB [tea; salt; mint] 5)
             (still spring) spring (fun n => eq_refl)).
    exists tea, [salt; mint]. split; [reflexivity | discriminate].
Defined.

(** A promotion of category [Unknown] that is considered after a
    discount: the comparison reads the discount's benefit, nothing is
    raised and the discount is returned. *)
Lemma unknown_after_discount_is_passed_over :
  In salt (List.filter (candidate 7 spring) (rows (mk_DB [tea; salt] 5)))
  /\ category salt = Unknown
  /\ snd (find_best_promotion_for_product 7 (mk_DB [tea; salt] 5)
            (still spring)) = Ok (Some tea)
  /\ snd (find_best_promotion_for_product 7 (mk_DB [tea; salt] 5)
            (still spring)) <> Raise UnboundLocalError.
Proof.
  split; [right; left; reflexivity |].
  split; [reflexivity |].
  split; [reflexivity | discriminate].
Qed.

End BestPromotion.

(** ** Claims on the combined finder *)
Section CombinedFinder.

Lemma eqb_true_r (b : bool) : Bool.eqb b true = b.
Proof. destruct b; reflexivity. Qed.

Lemma eqb_false_r (b : bool) : Bool.eqb b false = negb b.
Proof. destruct b; reflexivity. Qed.

(** On accepted criteria and at one instant [t], the finder answers
    the rows that meet every criterion, in the order of the table. *)
Lemma run_find_by_multi_attributes
      (c : Clock) (t : datetime) (args : gmap string value) (db : DB) :
  frozen c t ->
  accepted args ->
  run (find_by_multi_attributes args) c db
  = Ok (List.filter (meets args t) (rows db)).
Proof.
  intros Hfrozen (Hc & Hn & Hp & Hf & Ht & Ha).
  unfold run, find_by_multi_attributes, meets, meets_category,
    meets_product_name, meets_product_id, meets_from_date, meets_to_date,
    meets_available, bind, ret, lift.
  destruct (supplied args "category") as [vc |];
    [destruct (Hc vc eq_refl) as [cat Hcat];
     destruct vc; cbn [category_criterion] in Hcat |- *;
     try discriminate Hcat;
     [unfold TypeOfPromo.getitem; rewrite Hcat
     | injection Hcat as ->] |]; clear Hc.
  all: destruct (supplied args "product_name") as [v |];
    [destruct (Hn v eq_refl) as [s' ->] |]; clear Hn.
  all: destruct (supplied args "product_id") as [v |];
    [destruct (Hp v eq_refl) as [z ->] |]; clear Hp.
  all: destruct (supplied args "from_date") as [v |];
    [destruct (Hf v eq_refl) as [tf ->] |]; clear Hf.
  all: destruct (supplied args "to_date") as [v |];
    [destruct (Ht v eq_refl) as [tt' ->] |]; clear Ht.
  all: destruct (supplied args "available") as [v |];
    [destruct (Ha v eq_refl) as [n Hn]; rewrite Hn; unfold flag;
     destruct (n >? 0);
     rewrite (now_frozen0 c t Hfrozen), (now_frozen c t Hfrozen) |];
    clear Ha.
  all: unfold filter_by, query; cbn [criteria well_typed app];
    rewrite execute_filter; f_equal; apply filter_ext; intros r;
    cbn [forallb]; unfold active;
    rewrite ?eqb_true_r, ?eqb_false_r,
      ?(DateTimeFacts.gtb_swap t (to_date r)),
      ?DateTimeFacts.gtb_negb_leb, ?DateTimeFacts.ltb_negb_geb,
      ?negb_andb, ?andb_true_r, <- ?andb_assoc;
    reflexivity.
Qed.

Lemma supplied_None (args : gmap string value) (k : string) :
  supplied args k = None <-> args !! k = None \/ args !! k = Some VNone.
Proof.
  unfold supplied. destruct (args !! k) as [v |]; [| tauto].
  destruct v; simpl; split; try discriminate; try tauto;
    intros [H | H]; discriminate H.
Qed.

Lemma meets_iff (args : gmap string value) (t : datetime) (r : Promotion) :
  accepted args ->
  meets args t r = true <->
  (forall v cat, supplied args "category" = Some v ->
                 category_criterion v = Some cat -> category r = cat)
  /\ (forall s, supplied args "product_name" = Some (VStr s) ->
                product_name r = s)
  /\ (forall z, supplied args "product_id" = Some (VInt z) ->
                product_id r = z)
  /\ (forall d, supplied args "from_date" = Some (VDateTime d) ->
                from_date r = d)
  /\ (forall d, supplied args "to_date" = Some (VDateTime d) ->
                to_date r = d)
  /\ (forall v n, supplied args "available" = Some v -> py_int v = Ok n ->
                  active t r = flag n).
Proof.
  intros (Hc & Hn & Hp & Hf & Ht & Ha).
  unfold meets, meets_category, meets_product_name, meets_product_id,
    meets_from_date, meets_to_date, meets_available.
  rewrite !andb_true_iff.
  assert (forall A B C D E F A' B' C' D' E' F' : Prop,
             (A <-> A') -> (B <-> B') -> (C <-> C') -> (D <-> D') ->
             (E <-> E') -> (F <-> F') ->
             (((((A /\ B) /\ C) /\ D) /\ E) /\ F
              <-> A' /\ B' /\ C' /\ D' /\ E' /\ F')) as glue by tauto.
  apply glue; clear glue.
  - destruct (supplied args "category") as [v |]; [| split; [discriminate | reflexivity]].
    destruct (Hc v eq_refl) as [cat Hcat]. rewrite Hcat.
    rewrite TypeOfPromo_eqb_eq. split.
    + intros -> v' cat' [= <-] H. congruence.
    + intros H. apply (H v cat); [reflexivity | exact Hcat].
  - destruct (supplied args "product_name") as [v |]; [| split; [discriminate | reflexivity]].
    destruct (Hn v eq_refl) as [s ->]. rewrite String.eqb_eq. split.
    + intros -> s' [= <-]. reflexivity.
    + intros H. apply H. reflexivity.
  - destruct (supplied args "product_id") as [v |]; [| split; [discriminate | reflexivity]].
    destruct (Hp v eq_refl) as [z ->]. rewrite Z.eqb_eq. split.
    + intros -> s' [= <-]. reflexivity.
    + intros H. apply H. reflexivity.
  - destruct (supplied args "from_date") as [v |]; [| split; [discriminate | reflexivity]].
    destruct (Hf v eq_refl) as [d ->]. rewrite DateTimeFacts.eqb_eq. split.
    + intros -> s' [= <-]. reflexivity.
    + intros H. apply H. reflexivity.
  - destruct (supplied args "to_date") as [v |]; [| split; [discriminate | reflexivity]].
    destruct (Ht v eq_refl) as [d ->]. rewrite DateTimeFacts.eqb_eq. split.
    + intros -> s' [= <-]. reflexivity.
    + intros H. apply H. reflexivity.
  - destruct (supplied args "available") as [v |]; [| split; [discriminate | reflexivity]].
    destruct (Ha v eq_refl) as [n Hn']. rewrite Hn'.
    rewrite Bool.eqb_true_iff. split.
    + intros E v' n' [= <-] H. congruence.
    + intros H. apply (H v n); [reflexivity | exact Hn'].
Qed.

Lemma meets_no_criteria (args : gmap string value) (t : datetime)
      (r : Promotion) :
  (forall k, In k criteria_keys -> supplied args k = None) ->
  meets args t r = true.
Proof.
  intros H.
  unfold meets, meets_category, meets_product_name, meets_product_id,
    meets_from_date, meets_to_date, meets_available.
  rewrite !H by (unfold criteria_keys; simpl; tauto). reflexivity.
Qed.

(** C5.  On accepted criteria and at one instant [t], the combined
    finder answers exactly the rows of the table that satisfy every
    criterion supplied, a criterion being supplied when its key is
    present with a value other than [None]; the two date criteria are
    equalities; when none of the six is supplied the answer is the
    whole table. *)
Theorem combined_finder_is_conjunction
        (c : Clock) (t : datetime) (args : gmap string value) (db : DB) :
  frozen c t ->
  accepted args ->
  exists res,
    run (find_by_multi_attributes args) c db = Ok res
    /\ (forall r,
          In r res <->
          In r (rows db)
          /\ (forall v cat, supplied args "category" = Some v ->
                            category_criterion v = Some cat ->
                            category r = cat)
          /\ (forall s, supplied args "product_name" = Some (VStr s) ->
                        product_name r = s)
          /\ (forall z, supplied args "product_id" = Some (VInt z) ->
                        product_id r = z)
          /\ (forall d, supplied args "from_date" = Some (VDateTime d) ->
                        from_date r = d)
          /\ (forall d, supplied args "to_date" = Some (VDateTime d) ->
                        to_date r = d)
          /\ (forall v n, supplied args "available" = Some v ->
                          py_int v = Ok n -> active t r = flag n))
    /\ res = List.filter (meets args t) (rows db)
    /\ ((forall k, In k criteria_keys ->
                   args !! k = None \/ args !! k = Some VNone) ->
        res = rows db).
Proof.
  intros Hc Ha. exists (List.filter (meets args t) (rows db)).
  split; [apply run_find_by_multi_attributes; assumption |].
  split; [| split; [reflexivity |]].
  - intros r. rewrite filter_In, (meets_iff args t r Ha). reflexivity.
  - intros H. rewrite <- (filter_true (rows db)) at 2.
    apply filter_ext. intros r. apply meets_no_criteria.
    intros k Hk. apply supplied_None, H, Hk.
Qed.

Lemma accepted_bogof_of_product_7 : accepted bogof_of_product_7.
Proof.
  repeat split; intros v H; vm_compute in H; try discriminate H;
    injection H as <-; eexists; reflexivity.
Defined.

Lemma combined_finder_is_conjunction_witness :
  exists res,
    run (find_by_multi_attributes bogof_of_product_7) (still spring)
        (mk_DB [tea; jam; mint; salt] 5) = Ok res
    /\ res = [mint].
Proof.
  destruct (combined_finder_is_conjunction (still spring) spring
              bogof_of_product_7 (mk_DB [tea; jam; mint; salt] 5)
              (fun n => eq_refl) accepted_bogof_of_product_7)
    as (res & Hres & _ & Hf & _).
  exists res. split; [exact Hres | rewrite Hf; reflexivity].
Defined.

Lemma supplied_delete_ne (args : gmap string value) (k k' : string) :
  k <> k' -> supplied (base.delete k args) k' = supplied args k'.
Proof. intros H. unfold supplied. rewrite lookup_delete_ne by exact H. reflexivity. Qed.

Lemma supplied_delete_eq (args : gmap string value) (k : string) :
  supplied (base.delete k args) k = None.
Proof. unfold supplied. rewrite lookup_delete_eq. reflexivity. Qed.

Lemma accepted_delete_available (args : gmap string value) :
  accepted args -> accepted (base.delete "available" args).
Proof.
  intros (Hc & Hn & Hp & Hf & Ht & Ha). unfold accepted.
  rewrite supplied_delete_eq, !supplied_delete_ne by discriminate.
  repeat split; try assumption. intros v H. discriminate H.
Qed.

(** C6, as the code has it.  A supplied [available] criterion is
    converted with [int]; a result above 0 asks for the rows whose
    window contains [t], any other result, negative ones included,
    for the rows whose window does not.  That condition is one more
    conjunct: it is applied to the rows that the other criteria
    supplied in the same call select, date equalities among them. *)
Theorem available_criterion_is_positive_flag
        (c : Clock) (t : datetime) (args : gmap string value) (db : DB)
        (v : value) (n : Z) :
  frozen c t ->
  accepted args ->
  supplied args "available" = Some v ->
  py_int v = Ok n ->
  exists others,
    run (find_by_multi_attributes (base.delete "available" args)) c db
    = Ok others
    /\ run (find_by_multi_attributes args) c db
       = Ok (List.filter
               (fun r =>
                  if n >? 0
                  then DateTime.leb (from_date r) t
                       && DateTime.geb (to_date r) t
                  else negb (DateTime.leb (from_date r) t
                             && DateTime.geb (to_date r) t))
               others).
Proof.
  intros Hc Ha Hv Hn.
  exists (List.filter (meets (base.delete "available" args) t) (rows db)).
  split.
  - apply run_find_by_multi_attributes;
      [exact Hc | apply accepted_delete_available, Ha].
  - rewrite (run_find_by_multi_attributes c t args db Hc Ha).
    f_equal. rewrite filter_andb. apply filter_ext. intros r.
    unfold meets, meets_category, meets_product_name, meets_product_id,
      meets_from_date, meets_to_date, meets_available.
    rewrite supplied_delete_eq, !supplied_delete_ne by discriminate.
    rewrite Hv, Hn. unfold flag, active.
    destruct (n >? 0); rewrite ?eqb_true_r, ?eqb_false_r, andb_true_r;
      reflexivity.
Qed.

Lemma accepted_available_minus_one : accepted available_minus_one.
Proof.
  repeat split; intros v H; vm_compute in H; try discriminate H;
    injection H as <-; eexists; reflexivity.
Defined.

Lemma available_criterion_is_positive_flag_witness :
  exists others,
    run (find_by_multi_attributes (base.delete "available"
                                     available_minus_one))
        (still spring) (mk_DB [tea; jam] 3) = Ok others
    /\ others = [tea; jam]
    /\ run (find_by_multi_attributes available_minus_one)
           (still spring) (mk_DB [tea; jam] 3) = Ok [jam].
Proof.
  destruct (available_criterion_is_positive_flag (still spring) spring
              available_minus_one (mk_DB [tea; jam] 3) (VInt (-1)) (-1)
              (fun n => eq_refl) accepted_available_minus_one
              eq_refl eq_refl)
    as (others & Ho & Hr).
  exists others. split; [exact Ho |].
  assert (others = [tea; jam]) as E.
  { vm_compute in Ho. injection Ho as <-. reflexivity. }
  split; [exact E |]. rewrite Hr, E. reflexivity.
Defined.

(** The flag [-1] is an integer other than zero, and it asks for the
    rows that are not available: the row whose window contains the
    instant is left out, the other one is returned. *)
Lemma negative_flag_means_unavailable :
  py_int (VInt (-1)) = Ok (-1)
  /\ -1 <> 0
  /\ active spring tea = true
  /\ active spring jam = false
  /\ run (find_by_multi_attributes available_minus_one)
         (still spring) (mk_DB [tea; jam] 3) = Ok [jam]
  /\ run (find_by_availability true)
         (still spring) (mk_DB [tea; jam] 3) = Ok [tea].
Proof. repeat split; (reflexivity || discriminate). Qed.

(** A date equality supplied together with [available] still holds.
    Asked for unavailable rows that start on new year's day, the
    finder leaves out [jam], which is unavailable but starts in
    summer; asked for available rows that start in summer, it leaves
    out [tea] and [mint], which are available but start earlier. *)
Example available_with_date_equality :
  run (find_by_multi_attributes
         (<["available" := VInt 0]>
          (<["from_date" := VDateTime new_year]> ∅)))
      (still spring) (mk_DB [tea; jam; mint] 4) = Ok []
  /\ run (find_by_multi_attributes
            (<["available" := VInt 1]>
             (<["from_date" := VDateTime summer]> ∅)))
         (still spring) (mk_DB [tea; jam; mint] 4) = Ok [].
Proof. split; reflexivity. Qed.

End CombinedFinder.

(** * Further properties *)

(** ** What the library certainly refuses *)
Section CertainRefusals.

Lemma plain_symbol_no_digit (c : ascii) :
  plain_symbol c = true -> DateTime.digit_of_char c = None.
Proof.
  unfold plain_symbol, DateTime.digit_of_char. cbv zeta.
  intros H. repeat (apply andb_prop in H; destruct H as [H ?]).
  destruct ((48 <=? _) && (_ <=? 57)); [discriminate | reflexivity].
Qed.

Lemma plain_symbol_no_space (c : ascii) :
  plain_symbol c = true -> is_space c = false.
Proof.
  unfold plain_symbol, is_space. cbv zeta.
  intros H. repeat (apply andb_prop in H; destruct H as [H ?]).
  apply Z.leb_le in H.
  destruct (N.eqb_spec (N_of_ascii c) 32) as [E | E]; [rewrite E in H; cbn in H; lia |].
  cbn [orb].
  destruct (N.leb_spec 9 (N_of_ascii c)); [| reflexivity].
  destruct (N.leb_spec (N_of_ascii c) 13); [| reflexivity]. lia.
Qed.

Lemma plain_symbol_no_sign (c : ascii) :
  plain_symbol c = true ->
  DateTime.is_char c "-" = false /\ DateTime.is_char c "+" = false.
Proof.
  intros H. split.
  - cbn [DateTime.is_char]. destruct (Ascii.eqb_spec c "-"%char) as [-> | _];
      [discriminate H | reflexivity].
  - cbn [DateTime.is_char]. destruct (Ascii.eqb_spec c "+"%char) as [-> | _];
      [discriminate H | reflexivity].
Qed.

Lemma number_from_None (cs : list ascii) :
  fold_left (fun (a : option Z) c =>
               match a, DateTime.digit_of_char c with
               | Some v, Some d => Some (10 * v + d)
               | _, _ => None
               end) cs None = None.
Proof. induction cs as [| c cs IH]; [reflexivity | exact IH]. Qed.

Lemma number_from_symbol (cs : list ascii) :
  forall acc,
    existsb plain_symbol cs = true -> DateTime.number_from acc cs = None.
Proof.
  unfold DateTime.number_from.
  induction cs as [| c cs IH]; intros acc H; [discriminate H |].
  cbn [existsb] in H. cbn [fold_left].
  destruct (plain_symbol c) eqn:E.
  - rewrite (plain_symbol_no_digit c E). apply number_from_None.
  - cbn [orb] in H. destruct (DateTime.digit_of_char c).
    + apply IH, H.
    + apply number_from_None.
Qed.

Lemma unreadable_year_rejected (s : string) :
  unreadable_year s = true -> DateTime.fromisoformat s = None.
Proof.
  unfold unreadable_year, DateTime.fromisoformat.
  destruct (list_ascii_of_string s) as [| y1 [| y2 [| y3 [| y4 rest]]]];
    try reflexivity.
  intros H.
  destruct rest as [| c1 [| m1 [| m2 [| c2 [| d1 [| d2 rest]]]]]];
    try reflexivity.
  destruct (_ && _); [| reflexivity].
  change (DateTime.number [y1; y2; y3; y4])
    with (DateTime.number_from 0 [y1; y2; y3; y4]).
  rewrite (number_from_symbol _ 0 H). reflexivity.
Qed.

Lemma lstrip_keeps (c : ascii) (cs : list ascii) :
  is_space c = false -> In c cs -> In c (lstrip cs).
Proof.
  intros Hc. induction cs as [| x cs IH]; intros H; [contradiction |].
  cbn [lstrip]. destruct (is_space x) eqn:E.
  - destruct H as [-> | H]; [congruence | apply IH, H].
  - exact H.
Qed.

Lemma strip_keeps (c : ascii) (cs : list ascii) :
  is_space c = false -> In c cs -> In c (strip cs).
Proof.
  intros Hc H. unfold strip.
  apply in_rev. rewrite rev_involutive.
  apply (lstrip_keeps c _ Hc), in_rev. rewrite rev_involutive.
  apply (lstrip_keeps c _ Hc), H.
Qed.

Lemma existsb_strip (cs : list ascii) :
  existsb plain_symbol cs = true -> existsb plain_symbol (strip cs) = true.
Proof.
  intros H. apply existsb_exists in H. destruct H as (c & Hin & Hc).
  apply existsb_exists. exists c. split; [| exact Hc].
  apply strip_keeps; [apply plain_symbol_no_space, Hc | exact Hin].
Qed.

Lemma int_of_string_symbol (s : string) :
  existsb plain_symbol (list_ascii_of_string s) = true ->
  int_of_string s = None.
Proof.
  intros H. apply existsb_strip in H. unfold int_of_string.
  destruct (strip (list_ascii_of_string s)) as [| c rest]; [reflexivity |].
  cbn [existsb] in H.
  destruct (plain_symbol c) eqn:Ec.
  - destruct (plain_symbol_no_sign c Ec) as [-> ->].
    unfold DateTime.number. apply number_from_symbol.
    cbn [existsb]. rewrite Ec. reflexivity.
  - cbn [orb] in H.
    assert (DateTime.number rest = None) as Hr
        by (apply number_from_symbol, H).
    assert (DateTime.number (c :: rest) = None) as Hcr.
    { apply number_from_symbol. cbn [existsb]. rewrite H. apply orb_true_r. }
    destruct (DateTime.is_char c "-").
    + destruct rest; [reflexivity |]. rewrite Hr. reflexivity.
    + destruct (DateTime.is_char c "+").
      * destruct rest; [reflexivity | exact Hr].
      * exact Hcr.
Qed.

Lemma int_refuses_sound (v : value) (e : exn) :
  int_refuses v = Some e -> py_int v = Raise e.
Proof.
  unfold int_refuses, py_int. destruct v; try discriminate;
    try (intros [= <-]; reflexivity).
  destruct (String.eqb_spec s "") as [-> | Hs]; cbn [orb].
  - intros [= <-]. reflexivity.
  - destruct (existsb plain_symbol (list_ascii_of_string s)) eqn:E;
      [| discriminate].
    intros [= <-]. rewrite (int_of_string_symbol s E). reflexivity.
Qed.

End CertainRefusals.

(** ** [deserialize] and [serialize] *)
Section Deserialize.

Ltac deserialize_step :=
  match goal with
  | |- context [subscript ?d ?k] =>
      destruct (subscript d k) as [? | ?] eqn:?
  | |- context [getattr_TypeOfPromo ?v] =>
      destruct (getattr_TypeOfPromo v) as [? | ?] eqn:?
  | |- context [date_field ?v] =>
      destruct (date_field v) as [? | ?] eqn:?
  end.

Ltac deserialize_cases :=
  unfold deserialize, catch, deserialize_try, bind, lift, modify;
  repeat (deserialize_step; cbn [fst snd]).

Lemma subscript_Ok (data : body) (k : string) (v : value) :
  subscript data k = Ok v <-> exists d, data = Dict d /\ d !! k = Some v.
Proof.
  unfold subscript. destruct data as [d | w].
  - destruct (d !! k) as [u |] eqn:E; split.
    + intros [= ->]. eauto.
    + intros (d' & [= <-] & H). congruence.
    + discriminate.
    + intros (d' & [= <-] & H). congruence.
  - split; [discriminate | intros (d & H & _); discriminate H].
Qed.

Lemma subscript_Raise (data : body) (k : string) (e : exn) :
  subscript data k = Raise e ->
  (e = TypeError /\ exists w, data = NotDict w)
  \/ (e = KeyError k /\ exists d, data = Dict d /\ d !! k = None).
Proof.
  unfold subscript. destruct data as [d | w].
  - destruct (d !! k) eqn:E; [discriminate |]. intros [= <-]. right. eauto.
  - intros [= <-]. left. eauto.
Qed.

Lemma getattr_Ok (v w : value) :
  getattr_TypeOfPromo v = Ok w <->
  exists s, v = VStr s
            /\ ((exists c, TypeOfPromo.member_named s = Some c /\ w = VEnum c)
                \/ (TypeOfPromo.member_named s = None
                    /\ In s TypeOfPromo.class_attributes /\ w = VClassAttr s)).
Proof.
  unfold getattr_TypeOfPromo. split.
  - destruct v; try discriminate.
    destruct (TypeOfPromo.member_named s) as [c |] eqn:E.
    + intros [= <-]. exists s. split; [reflexivity |]. left. eauto.
    + destruct (existsb (String.eqb s) TypeOfPromo.class_attributes) eqn:Ex;
        [| discriminate].
      intros [= <-]. exists s. split; [reflexivity |]. right.
      split; [exact E |]. split; [| reflexivity].
      apply existsb_exists in Ex. destruct Ex as (x & Hx & Hs).
      apply String.eqb_eq in Hs. subst x. exact Hx.
  - intros (s & -> & [(c & -> & ->) | (-> & Hin & ->)]); [reflexivity |].
    assert (existsb (String.eqb s) TypeOfPromo.class_attributes = true) as ->.
    { apply existsb_exists. exists s. split; [exact Hin | apply String.eqb_refl]. }
    reflexivity.
Qed.

Lemma date_field_Ok (v w : value) :
  date_field v = Ok w <->
  (exists s t, v = VStr s /\ s <> "" /\ DateTime.fromisoformat s = Some t
               /\ w = VDateTime t)
  \/ ((forall s, v = VStr s -> s = "") /\ w = v).
Proof.
  unfold date_field. destruct v; try (split; [intros [= <-]; right; split; [discriminate | reflexivity] | intros [(s' & t' & H & _) | [_ ->]]; [discriminate H | reflexivity]]).
  unfold truthy. destruct (String.eqb_spec s ""); cbn [negb].
  - subst s. split.
    + intros [= <-]. right. split; [intros s [= <-]; reflexivity | reflexivity].
    + intros [(s' & t' & [= <-] & H & _) | [_ ->]]; [contradiction | reflexivity].
  - destruct (DateTime.fromisoformat s) as [t |] eqn:E; split.
    + intros [= <-]. left. exists s, t. auto.
    + intros [(s' & t' & [= <-] & _ & H & ->) | [H _]].
      * congruence.
      * specialize (H s eq_refl). contradiction.
    + discriminate.
    + intros [(s' & t' & [= <-] & _ & H & ->) | [H _]].
      * congruence.
      * specialize (H s eq_refl). contradiction.
Qed.

Lemma getattr_Raise (v : value) (e : exn) :
  getattr_TypeOfPromo v = Raise e ->
  e = TypeError \/ exists s, e = AttributeError s.
Proof.
  unfold getattr_TypeOfPromo.
  destruct v; try (intros [= <-]; left; reflexivity).
  destruct (TypeOfPromo.member_named s); [discriminate |].
  destruct (existsb _ _); [discriminate |].
  intros [= <-]. right. eauto.
Qed.

Lemma date_field_Raise (v : value) (e : exn) :
  date_field v = Raise e -> e = ValueError.
Proof.
  unfold date_field. destruct v; try discriminate.
  destruct (truthy (VStr s)); [| discriminate].
  destruct (DateTime.fromisoformat s); [discriminate |].
  intros [= <-]. reflexivity.
Qed.

Lemma date_field_total (v : value) :
  (forall s, v = VStr s -> s <> "" -> is_Some (DateTime.fromisoformat s)) ->
  exists w, date_field v = Ok w.
Proof.
  intros H. unfold date_field. destruct v; eauto.
  unfold truthy. destruct (String.eqb_spec s ""); cbn [negb]; eauto.
  destruct (H s eq_refl n) as [t ->]. eauto.
Qed.

(** X1.  [deserialize] never assigns [id], whatever the body and
    whether the method returns or raises. *)
Theorem deserialize_keeps_id (data : body) (self : attrs) :
  a_id (fst (deserialize data self)) = a_id self.
Proof. deserialize_cases; reflexivity. Qed.

(** X2.  Deserializing the same body a second time changes nothing: the
    instance and the outcome are those of the first time. *)
Theorem deserialize_idempotent (data : body) (self : attrs) :
  deserialize data (fst (deserialize data self)) = deserialize data self.
Proof. deserialize_cases; reflexivity. Qed.

(** X3.  When [deserialize] returns, the body is a dictionary that has
    the seven keys and its category is a string.  Conversely it returns
    whenever the body is such a dictionary, the category names a member
    (or one of the attributes that every enumeration class has) and
    each date that is a non-empty string is in the format that
    [isoformat] writes.  No other field is checked. *)
Theorem deserialize_success_conditions (data : body) (self : attrs) :
  (snd (deserialize data self) = Ok tt ->
   exists d,
     data = Dict d
     /\ (forall k, In k required_keys -> is_Some (d !! k))
     /\ exists s, d !! "category" = Some (VStr s))
  /\ (forall d,
        data = Dict d ->
        (forall k, In k required_keys -> is_Some (d !! k)) ->
        (exists s, d !! "category" = Some (VStr s)
                   /\ (is_Some (TypeOfPromo.member_named s)
                       \/ In s TypeOfPromo.class_attributes)) ->
        (forall s, d !! "from_date" = Some (VStr s) -> s <> "" ->
                   is_Some (DateTime.fromisoformat s)) ->
        (forall s, d !! "to_date" = Some (VStr s) -> s <> "" ->
                   is_Some (DateTime.fromisoformat s)) ->
        snd (deserialize data self) = Ok tt).
Proof.
  split.
  - deserialize_cases; try discriminate. intros _.
    repeat match goal with
           | H : subscript _ _ = Ok _ |- _ =>
               apply subscript_Ok in H; destruct H as (? & ? & H)
           end.
    subst data.
    repeat match goal with
           | H : Dict _ = Dict _ |- _ => injection H as <-
           end.
    eexists. split; [reflexivity |]. split.
    + intros k Hk. unfold required_keys in Hk. simpl in Hk.
      repeat (destruct Hk as [<- | Hk]; [eauto |]). contradiction.
    + match goal with
      | H : getattr_TypeOfPromo _ = Ok _ |- _ =>
          apply getattr_Ok in H; destruct H as (s & -> & _)
      end.
      exists s. assumption.
  - intros d -> Hk (s & Hc & Hs) Hf Ht.
    destruct (Hk "product_name") as [vn Hn]; [simpl; tauto |].
    destruct (Hk "product_id") as [vp Hp]; [simpl; tauto |].
    destruct (Hk "amount") as [va Ha]; [simpl; tauto |].
    destruct (Hk "description") as [vd Hd]; [simpl; tauto |].
    destruct (Hk "from_date") as [vf Hvf]; [simpl; tauto |].
    destruct (Hk "to_date") as [vt Hvt]; [simpl; tauto |].
    assert (exists w, getattr_TypeOfPromo (VStr s) = Ok w) as [w Hw].
    { destruct (TypeOfPromo.member_named s) as [c |] eqn:E.
      - exists (VEnum c). apply getattr_Ok. exists s.
        split; [reflexivity | left; eauto].
      - destruct Hs as [[c Hc'] | Hin]; [discriminate Hc' |].
        exists (VClassAttr s). apply getattr_Ok. exists s.
        split; [reflexivity | right; auto]. }
    destruct (date_field_total vf) as [wf Hwf].
    { intros s' ->. apply Hf, Hvf. }
    destruct (date_field_total vt) as [wt Hwt].
    { intros s' ->. apply Ht, Hvt. }
    unfold deserialize, catch, deserialize_try, bind, lift, modify, subscript.
    rewrite Hn, Hc, Hw, Hp, Ha, Hd, Hvf, Hwf, Hvt, Hwt. reflexivity.
Qed.

Lemma deserialize_success_conditions_witness :
  (exists d,
      Dict (scenario "BOGOF" (VDateTime new_year) VNone) = Dict d
      /\ (forall k, In k required_keys -> is_Some (d !! k))
      /\ exists s, d !! "category" = Some (VStr s))
  /\ snd (deserialize
           (Dict (scenario "BOGOF" (VStr "2024-01-01T00:00:00") (VStr "")))
           blank) = Ok tt.
Proof.
  split.
  - apply (proj1 (deserialize_success_conditions
                    (Dict (scenario "BOGOF" (VDateTime new_year) VNone))
                    blank)).
    vm_compute. reflexivity.
  - apply (proj2 (deserialize_success_conditions
                    (Dict (scenario "BOGOF" (VStr "2024-01-01T00:00:00")
                                    (VStr "")))
                    blank)
                 (scenario "BOGOF" (VStr "2024-01-01T00:00:00") (VStr ""))
                 eq_refl).
    + intros k Hk. unfold required_keys in Hk. cbn [In] in Hk.
      repeat (destruct Hk as [<- | Hk]; [vm_compute; eauto |]).
      contradiction.
    + exists "BOGOF". split; [vm_compute; reflexivity |].
      left. vm_compute. eauto.
    + intros s H Hne. vm_compute in H. injection H as <-.
      vm_compute. eauto.
    + intros s H Hne. vm_compute in H. injection H as <-.
      contradiction.
Defined.

(** X4.  When [deserialize] returns, the instance holds the values of
    the body as they are for the product name, product id, amount and
    description, whatever their types; a date that is not a non-empty
    string is stored as it is, [None] and the empty string included,
    and a non-empty string is replaced by the date it denotes. *)
Theorem deserialize_copies_fields
        (d : gmap string value) (self res : attrs) :
  deserialize (Dict d) self = (res, Ok tt) ->
  d !! "product_name" = Some (a_product_name res)
  /\ d !! "product_id" = Some (a_product_id res)
  /\ d !! "amount" = Some (a_amount res)
  /\ d !! "description" = Some (a_description res)
  /\ (forall v, d !! "from_date" = Some v -> (forall s, v = VStr s -> s = "") ->
                a_from_date res = v)
  /\ (forall v, d !! "to_date" = Some v -> (forall s, v = VStr s -> s = "") ->
                a_to_date res = v)
  /\ (forall s, d !! "from_date" = Some (VStr s) -> s <> "" ->
                exists t, DateTime.fromisoformat s = Some t
                          /\ a_from_date res = VDateTime t)
  /\ (forall s, d !! "to_date" = Some (VStr s) -> s <> "" ->
                exists t, DateTime.fromisoformat s = Some t
                          /\ a_to_date res = VDateTime t).
Proof.
  deserialize_cases; try discriminate. intros [= <-].
  repeat match goal with
         | H : subscript _ _ = Ok _ |- _ =>
             apply subscript_Ok in H; destruct H as (? & [= <-] & H)
         end.
  cbn [a_product_name a_product_id a_amount a_description a_from_date
       a_to_date set_product_name set_category set_product_id set_amount
       set_description set_from_date set_to_date].
  repeat match goal with
         | H : date_field _ = Ok _ |- _ => apply date_field_Ok in H
         end.
  repeat split; try assumption.
  - intros w Hw Hs.
    match goal with
    | H1 : d !! "from_date" = Some ?v,
      H : _ \/ (_ /\ ?r = ?v) |- ?r = _ =>
        rewrite Hw in H1; injection H1 as <-;
        destruct H as [(s' & t' & -> & Hne & _) | [_ H]];
        [specialize (Hs s' eq_refl); contradiction | exact H]
    end.
  - intros w Hw Hs.
    match goal with
    | H1 : d !! "to_date" = Some ?v,
      H : _ \/ (_ /\ ?r = ?v) |- ?r = _ =>
        rewrite Hw in H1; injection H1 as <-;
        destruct H as [(s' & t' & -> & Hne & _) | [_ H]];
        [specialize (Hs s' eq_refl); contradiction | exact H]
    end.
  - intros s Hs Hne.
    match goal with
    | H1 : d !! "from_date" = Some ?v,
      H : _ \/ (_ /\ ?r = ?v) |- exists _, _ /\ ?r = _ =>
        rewrite Hs in H1; injection H1 as <-;
        destruct H as [(s' & t' & [= <-] & _ & Hp & ->) | [H _]];
        [eauto | specialize (H s eq_refl); contradiction]
    end.
  - intros s Hs Hne.
    match goal with
    | H1 : d !! "to_date" = Some ?v,
      H : _ \/ (_ /\ ?r = ?v) |- exists _, _ /\ ?r = _ =>
        rewrite Hs in H1; injection H1 as <-;
        destruct H as [(s' & t' & [= <-] & _ & Hp & ->) | [H _]];
        [eauto | specialize (H s eq_refl); contradiction]
    end.
Qed.

Lemma deserialize_copies_fields_witness :
  scenario "BOGOF" (VDateTime new_year) (VStr "") !! "amount"
  = Some (a_amount
            (fst (deserialize
                    (Dict (scenario "BOGOF" (VDateTime new_year) (VStr "")))
                    blank)))
  /\ a_to_date
       (fst (deserialize
               (Dict (scenario "BOGOF" (VDateTime new_year) (VStr "")))
               blank)) = VStr "".
Proof.
  destruct (deserialize_copies_fields
              (scenario "BOGOF" (VDateTime new_year) (VStr "")) blank
              (fst (deserialize
                      (Dict (scenario "BOGOF" (VDateTime new_year) (VStr "")))
                      blank))
              eq_refl) as (_ & _ & Ha & _ & _ & Ht & _).
  split; [exact Ha |].
  apply (Ht (VStr "") eq_refl). intros s [= <-]. reflexivity.
Defined.

(** X5.  [deserialize] is not atomic: the product name of the body is
    assigned to the instance even when a later field makes the method
    raise. *)
Theorem deserialize_assigns_before_failing
        (d : gmap string value) (self : attrs) (v : value) :
  d !! "product_name" = Some v ->
  a_product_name (fst (deserialize (Dict d) self)) = v.
Proof.
  intros H.
  assert (subscript (Dict d) "product_name" = Ok v) as E
      by (unfold subscript; rewrite H; reflexivity).
  unfold deserialize, catch, deserialize_try, bind, lift, modify.
  rewrite E.
  repeat (deserialize_step; cbn [fst snd]); reflexivity.
Qed.

Lemma deserialize_assigns_before_failing_witness :
  a_product_name
    (fst (deserialize
            (Dict (base.delete "category"
                     (scenario "BOGOF" (VDateTime new_year) VNone)))
            blank)) = VStr "x"
  /\ snd (deserialize
            (Dict (base.delete "category"
                     (scenario "BOGOF" (VDateTime new_year) VNone)))
            blank)
     = Raise (DataValidationError "Invalid Promotion: missing category").
Proof.
  split; [| reflexivity].
  apply (deserialize_assigns_before_failing
           (base.delete "category"
              (scenario "BOGOF" (VDateTime new_year) VNone))
           blank (VStr "x")).
  vm_compute. reflexivity.
Defined.

(** X6.  A [DataValidationError] that says a key is missing names one
    of the seven keys, and the body is a dictionary without that
    key. *)
Theorem missing_key_message_is_sound
        (data : body) (self : attrs) (k : string) :
  snd (deserialize data self)
  = Raise (DataValidationError ("Invalid Promotion: missing " ++ k)) ->
  In k required_keys /\ exists d, data = Dict d /\ d !! k = None.
Proof.
  deserialize_cases; try discriminate;
    match goal with
    | H : subscript _ _ = Raise _ |- _ =>
        apply subscript_Raise in H;
        destruct H as [[-> _] | [-> H]];
        cbv [String.append default deserialize_except];
        [discriminate
        | intros [= <-]; split; [simpl; tauto | exact H]]
    | H : getattr_TypeOfPromo _ = Raise _ |- _ =>
        apply getattr_Raise in H; destruct H as [-> | [s ->]];
        cbv [String.append default deserialize_except]; discriminate
    | H : date_field _ = Raise _ |- _ =>
        apply date_field_Raise in H; subst;
        cbv [String.append default deserialize_except]; discriminate
    end.
Qed.

Lemma missing_key_message_is_sound_witness :
  In "product_id" required_keys
  /\ exists d,
      Dict (base.delete "product_id"
              (scenario "BOGOF" (VDateTime new_year) VNone)) = Dict d
      /\ d !! "product_id" = None.
Proof.
  apply (missing_key_message_is_sound
           (Dict (base.delete "product_id"
                    (scenario "BOGOF" (VDateTime new_year) VNone)))
           blank "product_id").
  vm_compute. reflexivity.
Defined.

Lemma deserialize_raises_witness :
  ValueError = ValueError \/ exists msg, ValueError = DataValidationError msg.
Proof.
  apply (deserialize_raises
           (Dict (scenario "Discount" (VStr "01/02/2024") VNone))
           blank ValueError eq_refl).
Defined.

(** X8.  A body whose fields before [from_date] are read without error
    and whose [from_date] is a non-empty string in which no year can be
    read (fewer than four characters, or a letter or such a symbol as
    [/] among the first four): [fromisoformat] raises [ValueError] and
    no [except] clause converts it. *)
Theorem deserialize_unreadable_year_escapes
      (d : gmap string value) (self : attrs)
      (vn vc cat vp va vd : value) (s : string) :
  d !! "product_name" = Some vn ->
  d !! "category" = Some vc ->
  getattr_TypeOfPromo vc = Ok cat ->
  d !! "product_id" = Some vp ->
  d !! "amount" = Some va ->
  d !! "description" = Some vd ->
  d !! "from_date" = Some (VStr s) ->
  s <> "" ->
  unreadable_year s = true ->
  snd (deserialize (Dict d) self) = Raise ValueError.
Proof.
  intros Hn Hc Hcat Hp Ha Hd Hf Hs Hy.
  apply unreadable_year_rejected in Hy.
  unfold deserialize, catch, deserialize_try, bind, lift, modify, subscript.
  rewrite Hn, Hc, Hcat, Hp, Ha, Hd, Hf.
  unfold date_field, truthy.
  apply String.eqb_neq in Hs. rewrite Hs. cbn [negb].
  rewrite Hy. reflexivity.
Qed.

Lemma deserialize_unreadable_year_escapes_witness :
  snd (deserialize (Dict (scenario "Discount" (VStr "01/02/2024") VNone))
                   blank) = Raise ValueError.
Proof.
  apply (deserialize_unreadable_year_escapes
           (scenario "Discount" (VStr "01/02/2024") VNone) blank
           (VStr "x") (VStr "Discount") (VEnum Discount) (VInt 1) (VInt 5)
           VNone "01/02/2024");
    (reflexivity || discriminate).
Defined.

Lemma isoformat_injective (a b : datetime) :
  DateTime.isoformat a = DateTime.isoformat b -> a = b.
Proof.
  intros H.
  pose proof (DateTimeFacts.fromisoformat_isoformat a) as Ha.
  rewrite H, DateTimeFacts.fromisoformat_isoformat in Ha. congruence.
Qed.

(** X9.  [serialize] loses nothing: two rows that serialize to the same
    dictionary are the same row. *)
Theorem serialize_injective (p q : Promotion) :
  serialize p = serialize q -> p = q.
Proof.
  intros H.
  destruct (serialize_lookup p) as (Pn & Pc & Pp & Pa & Pd & Pf & Pt & Pi).
  destruct (serialize_lookup q) as (Qn & Qc & Qp & Qa & Qd & Qf & Qt & Qi).
  rewrite H in Pn, Pc, Pp, Pa, Pd, Pf, Pt, Pi.
  rewrite Qn in Pn. rewrite Qc in Pc. rewrite Qp in Pp. rewrite Qa in Pa.
  rewrite Qd in Pd. rewrite Qf in Pf. rewrite Qt in Pt. rewrite Qi in Pi.
  destruct p as [pi pn pc pp pa pd pf pt], q as [qi qn qc qp qa qd qf qt].
  cbn [id product_name category product_id amount description from_date
       to_date] in *.
  assert (DateTime.isoformat qf = DateTime.isoformat pf) as Ef by congruence.
  assert (DateTime.isoformat qt = DateTime.isoformat pt) as Et by congruence.
  assert (TypeOfPromo.name qc = TypeOfPromo.name pc) as Ec by congruence.
  injection Pn as ->. injection Pp as ->. injection Pa as ->.
  apply isoformat_injective in Ef, Et. subst.
  assert (qc = pc) as -> by (destruct qc, pc; (reflexivity || discriminate Ec)).
  assert (qd = pd) as ->
      by (destruct qd, pd; cbn in Pd; congruence).
  assert (qi = pi) as ->
      by (destruct qi, pi; cbn in Pi; congruence).
  reflexivity.
Qed.

Lemma serialize_injective_witness : tea = tea.
Proof. apply (serialize_injective tea tea eq_refl). Defined.

End Deserialize.

(** ** Category names *)
Section CategoryNames.

Lemma append_empty (s : string) : (s ++ "")%string = s.
Proof.
  induction s as [| x s IH]; [reflexivity |].
  change (String x s ++ "")%string with (String x (s ++ "")).
  f_equal. exact IH.
Qed.

Lemma append_snoc (cur s : string) (ch : ascii) :
  ((cur ++ String ch "") ++ s)%string = (cur ++ String ch s)%string.
Proof.
  induction cur as [| x cur IH]; [reflexivity |].
  change (String x (cur ++ String ch "") ++ s = String x (cur ++ String ch s))%string.
  change (String x ((cur ++ String ch "") ++ s) = String x (cur ++ String ch s))%string.
  f_equal. exact IH.
Qed.

Lemma last_segment_from_no_dot (s cur : string) :
  no_dot s = true -> last_segment_from cur s = (cur ++ s)%string.
Proof.
  revert cur. induction s as [| ch s IH]; intros cur H.
  - cbn [last_segment_from]. symmetry. apply append_empty.
  - cbn [no_dot] in H. apply andb_prop in H. destruct H as [H1 H2].
    apply negb_true_iff in H1.
    cbn [last_segment_from]. rewrite H1, (IH _ H2). apply append_snoc.
Qed.

Lemma last_segment_from_qualified (p s cur : string) :
  no_dot s = true ->
  last_segment_from cur (p ++ "." ++ s)%string = s.
Proof.
  intros H. revert cur. induction p as [| ch p IH]; intros cur.
  - change ("" ++ "." ++ s)%string with (String "."%char s).
    cbn [last_segment_from].
    change (DateTime.is_char "."%char ".") with true. cbv iota.
    apply (last_segment_from_no_dot s "" H).
  - change (String ch p ++ "." ++ s)%string
      with (String ch (p ++ "." ++ s))%string.
    cbn [last_segment_from].
    destruct (DateTime.is_char ch "."); apply IH.
Qed.

Lemma member_named_name (c : TypeOfPromo) :
  TypeOfPromo.member_named (TypeOfPromo.name c) = Some c.
Proof. destruct c; reflexivity. Qed.

Lemma no_dot_name (c : TypeOfPromo) : no_dot (TypeOfPromo.name c) = true.
Proof. destruct c; reflexivity. Qed.

Lemma no_dot_qualified (p s : string) : no_dot (p ++ "." ++ s)%string = false.
Proof.
  induction p as [| ch p IH].
  - reflexivity.
  - change (String ch p ++ "." ++ s)%string
      with (String ch (p ++ "." ++ s))%string.
    cbn [no_dot]. rewrite IH. apply andb_false_r.
Qed.

Lemma member_named_Some (s : string) (c : TypeOfPromo) :
  TypeOfPromo.member_named s = Some c -> s = TypeOfPromo.name c.
Proof.
  unfold TypeOfPromo.member_named, TypeOfPromo.members. cbn [List.find].
  repeat match goal with
         | |- context [String.eqb ?a s] =>
             destruct (String.eqb_spec a s) as [<- | _]
         end; intros [= <-]; reflexivity.
Qed.

Lemma dotted_is_no_attribute (s : string) :
  no_dot s = false ->
  getattr_TypeOfPromo (VStr s) = Raise (AttributeError s).
Proof.
  intros H. unfold getattr_TypeOfPromo.
  destruct (TypeOfPromo.member_named s) as [c |] eqn:E.
  - apply member_named_Some in E. subst s. rewrite no_dot_name in H.
    discriminate H.
  - destruct (existsb (String.eqb s) TypeOfPromo.class_attributes) eqn:Ex;
      [| reflexivity].
    apply existsb_exists in Ex. destruct Ex as (x & Hx & Hs).
    apply String.eqb_eq in Hs. subst x.
    unfold TypeOfPromo.class_attributes in Hx. cbn [In] in Hx.
    repeat (destruct Hx as [<- | Hx]; [discriminate H |]). contradiction.
Qed.

(** X10.  The finder by category takes the name of a member with any
    qualifying prefix, as in ["TypeOfPromo.BOGOF"], as it takes the
    bare name and the member itself, and its answer is the rows of
    that category. *)
Theorem find_by_category_accepts_qualified_names
        (c : TypeOfPromo) (prefix : string) (db : DB) :
  find_by_category (VStr (prefix ++ "." ++ TypeOfPromo.name c))
  = find_by_category (VEnum c)
  /\ find_by_category (VStr (TypeOfPromo.name c)) = find_by_category (VEnum c)
  /\ exists q,
      find_by_category (VEnum c) = Ok q
      /\ exists res,
          execute q db = Ok res
          /\ forall r, In r res <-> In r (rows db) /\ category r = c.
Proof.
  split; [| split].
  - unfold find_by_category, last_segment.
    rewrite (last_segment_from_qualified prefix _ "" (no_dot_name c)).
    unfold TypeOfPromo.getitem. rewrite member_named_name. reflexivity.
  - unfold find_by_category, last_segment.
    rewrite (last_segment_from_no_dot _ "" (no_dot_name c)).
    change ("" ++ TypeOfPromo.name c)%string with (TypeOfPromo.name c).
    unfold TypeOfPromo.getitem. rewrite member_named_name. reflexivity.
  - eexists. split; [reflexivity |].
    unfold filter_by, query. cbn [criteria well_typed app].
    rewrite execute_filter. eexists. split; [reflexivity |].
    intros r. rewrite filter_In. cbn [forallb].
    rewrite andb_true_r, TypeOfPromo_eqb_eq. reflexivity.
Qed.

(** X11.  [deserialize] does not take the qualified names that the
    finders take: a category string with a dot in it is no attribute of
    the class, and the method raises a [DataValidationError] for an
    invalid attribute. *)
Theorem qualified_name_is_refused_by_deserialize
        (d : gmap string value) (self : attrs) (vn : value)
        (prefix : string) (c : TypeOfPromo) :
  d !! "product_name" = Some vn ->
  d !! "category" = Some (VStr (prefix ++ "." ++ TypeOfPromo.name c)) ->
  (exists detail,
      snd (deserialize (Dict d) self)
      = Raise (DataValidationError ("Invalid attribute: " ++ detail)))
  /\ exists q,
      find_by_category (VStr (prefix ++ "." ++ TypeOfPromo.name c)) = Ok q.
Proof.
  intros Hn Hc. split.
  - exists (prefix ++ "." ++ TypeOfPromo.name c)%string.
    unfold deserialize, catch, deserialize_try, bind, lift, modify, subscript.
    rewrite Hn, Hc.
    rewrite (dotted_is_no_attribute _ (no_dot_qualified prefix _)).
    reflexivity.
  - unfold find_by_category, last_segment.
    rewrite (last_segment_from_qualified prefix _ "" (no_dot_name c)).
    unfold TypeOfPromo.getitem. rewrite member_named_name. eauto.
Qed.

Lemma qualified_name_is_refused_by_deserialize_witness :
  (exists detail,
      snd (deserialize
             (Dict (scenario "TypeOfPromo.BOGOF" (VDateTime new_year) VNone))
             blank)
      = Raise (DataValidationError ("Invalid attribute: " ++ detail)))
  /\ exists q, find_by_category (VStr ("TypeOfPromo" ++ "." ++ "BOGOF")) = Ok q.
Proof.
  apply (qualified_name_is_refused_by_deserialize
           (scenario "TypeOfPromo.BOGOF" (VDateTime new_year) VNone)
           blank (VStr "x") "TypeOfPromo" BOGOF eq_refl eq_refl).
Defined.

End CategoryNames.

(** ** The store *)
Section Store.

Lemma has_id_true (i : Z) (r : Promotion) : has_id i r = true <-> id r = Some i.
Proof.
  unfold has_id. destruct (id r) as [j |]; [| split; discriminate].
  rewrite Z.eqb_eq. split; congruence.
Qed.

Lemma find_Some (i : Z) (db : DB) (r : Promotion) :
  find i db = Some r -> In r (rows db) /\ id r = Some i.
Proof.
  unfold find. intros H. apply find_some in H.
  destruct H as [H1 H2]. apply has_id_true in H2. auto.
Qed.

Lemma find_None (i : Z) (db : DB) :
  find i db = None <-> forall r, In r (rows db) -> id r <> Some i.
Proof.
  unfold find. split.
  - intros H r Hr E. apply has_id_true in E.
    pose proof (find_none _ _ H r Hr) as F. congruence.
  - intros H. destruct (List.find (has_id i) (rows db)) as [r |] eqn:E;
      [| reflexivity].
    apply find_some in E. destruct E as [E1 E2]. apply has_id_true in E2.
    exfalso. exact (H r E1 E2).
Qed.

Lemma find_map_other (j : Z) (f : Promotion -> Promotion) (l : list Promotion) :
  (forall r, In r l -> has_id j r = true -> f r = r) ->
  (forall r, In r l -> has_id j r = false -> has_id j (f r) = false) ->
  List.find (has_id j) (map f l) = List.find (has_id j) l.
Proof.
  induction l as [| r l IH]; intros H1 H2; [reflexivity |].
  cbn [map List.find].
  destruct (has_id j r) eqn:E.
  - rewrite (H1 r (or_introl eq_refl) E), E. reflexivity.
  - rewrite (H2 r (or_introl eq_refl) E).
    apply IH; intros r' Hr'; [apply H1 | apply H2]; right; exact Hr'.
Qed.

Lemma find_filter_other (j : Z) (g : Promotion -> bool) (l : list Promotion) :
  (forall r, In r l -> has_id j r = true -> g r = true) ->
  List.find (has_id j) (List.filter g l) = List.find (has_id j) l.
Proof.
  induction l as [| r l IH]; intros H; [reflexivity |].
  cbn [List.filter List.find].
  destruct (has_id j r) eqn:E.
  - rewrite (H r (or_introl eq_refl) E). cbn [List.find]. rewrite E.
    reflexivity.
  - destruct (g r); cbn [List.find]; rewrite ?E;
      apply IH; intros r' Hr'; apply H; right; exact Hr'.
Qed.

Lemma same_id_Some (r self : Promotion) (i : Z) :
  id self = Some i -> same_id r self = has_id i r.
Proof. unfold same_id, has_id. intros ->. reflexivity. Qed.

Lemma keyed_fresh (db : DB) (r : Promotion) :
  keyed db -> In r (rows db) -> has_id (next_id db) r = false.
Proof.
  intros [_ H] Hr. destruct (H r Hr) as (i & Hi & Hlt).
  unfold has_id. rewrite Hi. apply Z.eqb_neq. lia.
Qed.

Lemma keyed_sample : keyed (mk_DB [tea; jam] 3).
Proof.
  split.
  - cbn [rows map]. apply NoDup_cons. split.
    + intros H. apply list_elem_of_singleton in H. discriminate H.
    + apply NoDup_singleton.
  - intros r [<- | [<- | []]]; eexists; (split; [reflexivity | cbn; lia]).
Defined.

Lemma mint_is_valid : ~ invalid mint.
Proof. intros [H | [H _]]; [cbn in H; lia | discriminate H]. Defined.

(** X12.  [create], [update] and [delete] keep the keys of the table
    pairwise distinct and below the next key to assign. *)
Theorem writers_keep_keys (self : Promotion) (db : DB) :
  keyed db ->
  keyed (snd (fst (create (self, db))))
  /\ keyed (snd (fst (update (self, db))))
  /\ keyed (snd (fst (delete (self, db)))).
Proof.
  intros [Hnd Hlt]. split; [| split].
  - destruct (create_cases self db) as [[_ [msg E]] | [_ E]]; rewrite E;
      cbn [fst snd]; [split; assumption |].
    split; cbn [rows next_id].
    + rewrite map_app. cbn [map id set_id].
      apply NoDup_app. split; [exact Hnd |]. split; [| apply NoDup_singleton].
      intros o Ho Ho'. apply list_elem_of_In in Ho.
      apply list_elem_of_singleton in Ho'. subst o.
      apply in_map_iff in Ho. destruct Ho as (r & Hr & Hin).
      destruct (Hlt r Hin) as (i & Hi & Hb). rewrite Hi in Hr.
      injection Hr as ->. lia.
    + intros r Hr. apply in_app_or in Hr. destruct Hr as [Hr | [<- | []]].
      * destruct (Hlt r Hr) as (i & Hi & Hb). exists i. split; [exact Hi | lia].
      * exists (next_id db). split; [reflexivity | lia].
  - unfold update, modify, session_commit. cbn [fst snd].
    assert (map id (map (fun r => if same_id r self then self else r)
                        (rows db)) = map id (rows db)) as E.
    { rewrite map_map. apply map_ext. intros r.
      destruct (same_id r self) eqn:Es; [| reflexivity].
      apply same_id_true in Es. symmetry. apply Es. }
    split; cbn [rows next_id].
    + rewrite E. exact Hnd.
    + intros r Hr. apply in_map_iff in Hr. destruct Hr as (x & Hx & Hin).
      destruct (Hlt x Hin) as (i & Hi & Hb).
      destruct (same_id x self) eqn:Es; subst r; [| eauto].
      apply same_id_true in Es. destruct Es as [Es _].
      exists i. split; [congruence | exact Hb].
  - unfold delete, modify, session_delete. cbn [fst snd].
    split; cbn [rows next_id].
    + clear Hlt. induction (rows db) as [| x l IH]; [exact Hnd |].
      cbn [List.filter map] in *. apply NoDup_cons in Hnd.
      destruct Hnd as [Hx Hl].
      destruct (negb (same_id x self)); [| exact (IH Hl)].
      cbn [map]. apply NoDup_cons. split; [| exact (IH Hl)].
      intros Hin. apply Hx. apply list_elem_of_In in Hin.
      apply list_elem_of_In.
      apply in_map_iff in Hin. destruct Hin as (r & Hr & Hin).
      apply filter_In in Hin. apply in_map_iff. exists r. tauto.
    + intros r Hr. apply filter_In in Hr. apply Hlt, Hr.
Qed.

Lemma writers_keep_keys_witness :
  keyed (snd (fst (create (mint, mk_DB [tea; jam] 3)))).
Proof. apply (writers_keep_keys mint (mk_DB [tea; jam] 3) keyed_sample). Defined.

(** X13.  After a successful [create] on a table with distinct keys,
    [find] with the new key gives the instance as it now is, that key
    was not in use before, and [find] with any other key answers as
    before. *)
Theorem find_after_create (self : Promotion) (db : DB) :
  keyed db ->
  ~ invalid self ->
  find (next_id db) (snd (fst (create (self, db))))
  = Some (fst (fst (create (self, db))))
  /\ id (fst (fst (create (self, db)))) = Some (next_id db)
  /\ find (next_id db) db = None
  /\ (forall j, j <> next_id db ->
        find j (snd (fst (create (self, db)))) = find j db).
Proof.
  intros Hk Hv.
  destruct (create_cases self db) as [[Hi _] | [_ E]]; [contradiction |].
  rewrite E. cbn [fst snd]. unfold find. cbn [rows].
  assert (List.find (has_id (next_id db)) (rows db) = None) as Hnone.
  { apply (find_None (next_id db) db). intros r Hr Hid.
    pose proof (keyed_fresh db r Hk Hr) as F.
    apply has_id_true in Hid. congruence. }
  assert (forall j l x, List.find (has_id j) (l ++ [x])
                        = match List.find (has_id j) l with
                          | Some r => Some r
                          | None => if has_id j x then Some x else None
                          end) as Happ.
  { intros j l x. induction l as [| y l IH]; [reflexivity |].
    cbn [app List.find]. destruct (has_id j y); [reflexivity | exact IH]. }
  repeat split.
  - rewrite Happ, Hnone.
    assert (has_id (next_id db) (set_id (Some (next_id db)) self) = true)
      as -> by (apply has_id_true; reflexivity).
    reflexivity.
  - exact Hnone.
  - intros j Hj. rewrite Happ.
    destruct (List.find (has_id j) (rows db)); [reflexivity |].
    assert (has_id j (set_id (Some (next_id db)) self) = false) as ->.
    { unfold has_id. cbn [id set_id]. apply Z.eqb_neq. congruence. }
    reflexivity.
Qed.

Lemma find_after_create_witness :
  find 3 (snd (fst (create (mint, mk_DB [tea; jam] 3))))
  = Some (fst (fst (create (mint, mk_DB [tea; jam] 3)))).
Proof.
  apply (find_after_create mint (mk_DB [tea; jam] 3) keyed_sample
           mint_is_valid).
Defined.

(** X14.  After [update] of an instance with key [i], [find i] gives
    the instance if the table had a row with that key and nothing
    otherwise, and [find] with any other key answers as before. *)
Theorem find_after_update (self : Promotion) (db : DB) (i : Z) :
  id self = Some i ->
  (is_Some (find i db) ->
   find i (snd (fst (update (self, db)))) = Some self)
  /\ (find i db = None -> find i (snd (fst (update (self, db)))) = None)
  /\ (forall j, j <> i ->
        find j (snd (fst (update (self, db)))) = find j db).
Proof.
  intros Hi. unfold update, modify, session_commit, find.
  cbn [fst snd rows].
  assert (has_id i self = true) as Hs by (apply has_id_true, Hi).
  split; [| split].
  - intros [r Hr]. revert Hr.
    induction (rows db) as [| x l IH]; [discriminate |].
    cbn [map List.find]. rewrite (same_id_Some x self i Hi).
    destruct (has_id i x) eqn:E.
    + rewrite Hs. reflexivity.
    + rewrite E. exact IH.
  - induction (rows db) as [| x l IH]; [reflexivity |].
    cbn [map List.find]. rewrite (same_id_Some x self i Hi).
    destruct (has_id i x) eqn:E; [discriminate |].
    rewrite E. exact IH.
  - intros j Hj. apply find_map_other; intros r _ E;
      rewrite (same_id_Some r self i Hi).
    + destruct (has_id i r) eqn:E'; [| reflexivity].
      apply has_id_true in E, E'. congruence.
    + destruct (has_id i r) eqn:E'; [| exact E].
      destruct (has_id j self) eqn:E''; [| reflexivity].
      apply has_id_true in E''. congruence.
Qed.

Lemma find_after_update_witness :
  find 1 (snd (fst (update
            (mk_Promotion (Some 1) "tea" Discount 7 150 None new_year
                          new_year_eve,
             mk_DB [tea; jam] 3))))
  = Some (mk_Promotion (Some 1) "tea" Discount 7 150 None new_year
                       new_year_eve).
Proof.
  destruct (find_after_update
              (mk_Promotion (Some 1) "tea" Discount 7 150 None new_year
                            new_year_eve)
              (mk_DB [tea; jam] 3) 1 eq_refl) as [H _].
  apply H. exists tea. reflexivity.
Defined.

(** X15.  After [delete] of a stored instance with key [i], [find i]
    gives nothing, [find] with any other key answers as before, and
    the table holds the rows it held under other keys. *)
Theorem find_after_delete (self : Promotion) (db : DB) (i : Z) :
  id self = Some i ->
  is_Some (find i db) ->
  find i (snd (fst (delete (self, db)))) = None
  /\ (forall j, j <> i ->
        find j (snd (fst (delete (self, db)))) = find j db)
  /\ (forall r, In r (rows (snd (fst (delete (self, db))))) <->
                In r (rows db) /\ id r <> Some i).
Proof.
  intros Hi _. unfold delete, modify, session_delete. cbn [fst snd].
  split; [| split].
  - apply find_None. cbn [rows]. intros r Hr E.
    apply filter_In in Hr. destruct Hr as [_ Hr].
    rewrite (same_id_Some r self i Hi) in Hr.
    apply has_id_true in E. rewrite E in Hr. discriminate.
  - intros j Hj. unfold find. cbn [rows].
    apply find_filter_other. intros r _ E.
    rewrite (same_id_Some r self i Hi).
    destruct (has_id i r) eqn:E'; [| reflexivity].
    apply has_id_true in E, E'. congruence.
  - intros r. cbn [rows]. rewrite filter_In.
    rewrite (same_id_Some r self i Hi), negb_true_iff.
    rewrite <- not_true_iff_false, has_id_true. reflexivity.
Qed.

Lemma find_after_delete_witness :
  find 1 (snd (fst (delete (tea, mk_DB [tea; jam] 3)))) = None.
Proof.
  apply (find_after_delete tea (mk_DB [tea; jam] 3) 1 eq_refl).
  exists tea. reflexivity.
Defined.

(** X16.  On a table with distinct keys, deleting the instance that a
    successful [create] has just stored gives back the rows that the
    table had. *)
Theorem delete_undoes_create (self : Promotion) (db : DB) :
  keyed db ->
  ~ invalid self ->
  rows (snd (fst (delete (fst (create (self, db)))))) = rows db.
Proof.
  intros Hk Hv.
  destruct (create_cases self db) as [[Hi _] | [_ E]]; [contradiction |].
  rewrite E. unfold delete, modify, session_delete. cbn [fst snd rows].
  rewrite List.filter_app. cbn [List.filter].
  assert (same_id (set_id (Some (next_id db)) self)
                  (set_id (Some (next_id db)) self) = true) as ->.
  { apply same_id_true. split; [reflexivity | discriminate]. }
  cbn [negb]. rewrite app_nil_r.
  rewrite <- (filter_true (rows db)) at 2. apply filter_ext_in.
  intros r Hr.
  rewrite (same_id_Some r (set_id (Some (next_id db)) self) (next_id db)
             eq_refl).
  rewrite (keyed_fresh db r Hk Hr). reflexivity.
Qed.

Lemma delete_undoes_create_witness :
  rows (snd (fst (delete (fst (create (mint, mk_DB [tea; jam] 3))))))
  = [tea; jam].
Proof.
  apply (delete_undoes_create mint (mk_DB [tea; jam] 3) keyed_sample
           mint_is_valid).
Defined.

End Store.

(** ** Availability on a running clock *)
Section RunningClock.

Lemma run_available_any_clock (c : Clock) (db : DB) :
  run (find_by_availability true) c db
  = Ok (List.filter (in_window c) (rows db)).
Proof.
  unfold run, find_by_availability, bind, ret, now. cbn [fst snd readings reads].
  unfold filter_by, query. cbn [criteria well_typed app].
  rewrite execute_filter. f_equal. apply filter_ext. intros r.
  unfold in_window, first_reading, second_reading. cbn [forallb].
  rewrite andb_true_r. reflexivity.
Qed.

Lemma run_unavailable_any_clock (c : Clock) (db : DB) :
  run (find_by_availability false) c db
  = Ok (List.filter (fun r => negb (in_window c r)) (rows db)).
Proof.
  unfold run, find_by_availability, bind, ret, now. cbn [fst snd readings reads].
  unfold filter_by, query. cbn [criteria well_typed app].
  rewrite execute_filter. f_equal. apply filter_ext. intros r.
  unfold in_window, first_reading, second_reading. cbn [forallb].
  rewrite andb_true_r, negb_andb, DateTimeFacts.gtb_negb_leb,
    DateTimeFacts.ltb_negb_geb. reflexivity.
Qed.

(** X17.  The finder by availability reads the clock twice in one
    call: the start of a window is compared with the first reading and
    its end with the second.  Asked for the other rows from the same
    clock, it answers the complement, also when the clock moves between
    the two readings. *)
Theorem availability_reads_the_clock_twice (c : Clock) (db : DB) :
  run (find_by_availability true) c db
  = Ok (List.filter
          (fun r => DateTime.leb (from_date r) (readings c (reads c))
                    && DateTime.geb (to_date r) (readings c (S (reads c))))
          (rows db))
  /\ run (find_by_availability false) c db
     = Ok (List.filter
             (fun r =>
                negb (DateTime.leb (from_date r) (readings c (reads c))
                      && DateTime.geb (to_date r) (readings c (S (reads c)))))
             (rows db))
  /\ forall b, reads (fst (find_by_availability b c)) = S (S (reads c)).
Proof.
  split; [apply run_available_any_clock |].
  split; [apply run_unavailable_any_clock |].
  intros [|]; reflexivity.
Qed.

(** X18.  [is_available] never raises, it reads the clock as the finder
    by availability does, and the rows that the finder answers are the
    rows of the table for which [is_available] is true. *)
Theorem is_available_agrees_with_finder
        (c : Clock) (db : DB) (r : Promotion) :
  (exists b, snd (is_available r c) = Ok b)
  /\ (snd (is_available r c) = Ok true
      <-> DateTime.leb (from_date r) (readings c (reads c)) = true
          /\ DateTime.geb (to_date r) (readings c (S (reads c))) = true)
  /\ (forall yes, run (find_by_availability true) c db = Ok yes ->
        (In r yes <-> In r (rows db) /\ snd (is_available r c) = Ok true)).
Proof.
  assert (snd (is_available r c) = Ok (in_window c r)) as E.
  { unfold is_available, bind, ret, now, in_window, first_reading,
      second_reading. cbn [fst snd readings reads].
    destruct (DateTime.leb (from_date r) (readings c (reads c)));
      reflexivity. }
  split; [eauto | split].
  - rewrite E. unfold in_window, first_reading, second_reading.
    rewrite <- andb_true_iff. split; congruence.
  - intros yes Hyes. rewrite run_available_any_clock in Hyes.
    injection Hyes as <-.
    rewrite filter_In, E. split; intros [H1 H2]; split; congruence.
Qed.

Lemma is_available_agrees_with_finder_witness :
  In tea [tea] <->
  In tea (rows (mk_DB [tea; jam] 3))
  /\ snd (is_available tea (still spring)) = Ok true.
Proof.
  destruct (is_available_agrees_with_finder (still spring)
              (mk_DB [tea; jam] 3) tea) as (_ & _ & H).
  apply (H [tea] eq_refl).
Defined.

End RunningClock.

(** ** The combined finder and the single finders *)
Section FinderParity.

Ltac single_criterion :=
  unfold run, find_by_multi_attributes, supplied;
  rewrite ?lookup_singleton_eq;
  rewrite ?lookup_singleton_ne by discriminate;
  cbn [is_none]; unfold bind, ret, lift.

(** X19.  Given one criterion, the combined finder answers as the
    single finder of that criterion does: by product id, by product
    name, by category given as a member or as a string (the same
    [KeyError] included), and by availability, the flag being
    [int(v) > 0]. *)
Theorem single_criterion_agrees_with_single_finder (c : Clock) (db : DB) :
  (forall z, run (find_by_multi_attributes {["product_id" := VInt z]}) c db
             = execute (find_by_product_id z) db)
  /\ (forall s, run (find_by_multi_attributes {["product_name" := VStr s]}) c db
                = execute (find_by_product_name s) db)
  /\ (forall m, run (find_by_multi_attributes {["category" := VEnum m]}) c db
                = match find_by_category (VEnum m) with
                  | Ok q => execute q db
                  | Raise e => Raise e
                  end)
  /\ (forall s, run (find_by_multi_attributes {["category" := VStr s]}) c db
                = match find_by_category (VStr s) with
                  | Ok q => execute q db
                  | Raise e => Raise e
                  end)
  /\ (forall v n, py_int v = Ok n ->
        run (find_by_multi_attributes {["available" := v]}) c db
        = run (find_by_availability (n >? 0)) c db).
Proof.
  split; [| split; [| split; [| split]]].
  - intros z. single_criterion. reflexivity.
  - intros s. single_criterion. reflexivity.
  - intros m. single_criterion. reflexivity.
  - intros s. single_criterion. unfold find_by_category.
    destruct (TypeOfPromo.getitem (last_segment s)); reflexivity.
  - intros v n Hn.
    assert (is_none v = false) as Hv by (destruct v; (reflexivity || discriminate Hn)).
    unfold run, find_by_multi_attributes, supplied;
      rewrite ?lookup_singleton_eq;
      rewrite ?lookup_singleton_ne by discriminate.
    rewrite Hv. unfold bind, ret, lift. rewrite Hn.
    unfold find_by_availability, bind, ret, now.
    destruct (n >? 0); cbn [fst snd readings reads]; [reflexivity |].
    unfold filter_by, query. cbn [criteria well_typed app].
    rewrite !execute_filter. f_equal. apply filter_ext. intros r.
    cbn [forallb].
    rewrite (DateTimeFacts.gtb_swap (readings c (S (reads c))) (to_date r)).
    reflexivity.
Qed.

Lemma single_criterion_agrees_with_single_finder_witness :
  run (find_by_multi_attributes {["available" := VStr "1"]}) (still spring)
      (mk_DB [tea; jam] 3)
  = run (find_by_availability (1 >? 0)) (still spring) (mk_DB [tea; jam] 3).
Proof.
  destruct (single_criterion_agrees_with_single_finder (still spring)
              (mk_DB [tea; jam] 3)) as (_ & _ & _ & _ & H).
  apply (H (VStr "1") 1 eq_refl).
Defined.

(** X20.  A category string whose last segment names no member makes
    the combined finder raise [KeyError] with that segment; an
    [available] value that [int] refuses (the empty string, a string
    with a letter or such a symbol as [.] in it, a date, a member, a
    list) makes it raise the exception of [int], [ValueError] for the
    strings and [TypeError] for the others; in both cases whatever the
    other criteria are, and before the clock is read. *)
Theorem combined_finder_errors (args : gmap string value) (c : Clock) :
  (forall s, supplied args "category" = Some (VStr s) ->
     TypeOfPromo.member_named (last_segment s) = None ->
     find_by_multi_attributes args c = (c, Raise (KeyError (last_segment s))))
  /\ (forall v e,
        (forall s, supplied args "category" = Some (VStr s) ->
                   is_Some (TypeOfPromo.member_named (last_segment s))) ->
        supplied args "available" = Some v ->
        int_refuses v = Some e ->
        find_by_multi_attributes args c = (c, Raise e)).
Proof.
  split.
  - intros s Hs Hm. unfold find_by_multi_attributes, bind, lift.
    rewrite Hs. unfold TypeOfPromo.getitem. rewrite Hm. reflexivity.
  - intros v e Hc Hv He. apply int_refuses_sound in He.
    unfold find_by_multi_attributes, bind, lift, ret.
    rewrite Hv, He.
    destruct (supplied args "category") as [[] |]; try reflexivity.
    destruct (Hc s eq_refl) as [m Hm].
    unfold TypeOfPromo.getitem. rewrite Hm. reflexivity.
Qed.

Lemma combined_finder_errors_witness :
  find_by_multi_attributes
    (<["category" := VStr "Promo.Nope"]> {["product_id" := VInt 7]})
    (still spring)
  = (still spring, Raise (KeyError (last_segment "Promo.Nope")))
  /\ find_by_multi_attributes {["available" := VStr "true"]} (still spring)
     = (still spring, Raise ValueError).
Proof.
  split.
  - apply (proj1 (combined_finder_errors
                    (<["category" := VStr "Promo.Nope"]>
                       {["product_id" := VInt 7]})
                    (still spring)) "Promo.Nope");
      vm_compute; reflexivity.
  - apply (proj2 (combined_finder_errors {["available" := VStr "true"]}
                    (still spring)) (VStr "true") ValueError);
      [intros s H; vm_compute in H; discriminate H
      | vm_compute; reflexivity | vm_compute; reflexivity].
Defined.

End FinderParity.

(** ** The best promotion on any clock *)
Section BestPromotionOutcomes.

Lemma find_best_any_clock (pid : Z) (db : DB) (c : Clock) :
  snd (find_best_promotion_for_product pid db c)
  = best_loop (List.filter (considered pid c) (rows db)) None 0%Q None.
Proof.
  unfold find_best_promotion_for_product, bind, lift, now.
  cbn [fst snd readings reads].
  unfold filter_by, query. cbn [criteria well_typed app].
  rewrite execute_filter. cbn [fst snd]. f_equal. apply filter_ext.
  intros r. unfold considered, in_window, first_reading, second_reading.
  cbn [forallb]. rewrite andb_true_r, andb_assoc. reflexivity.
Qed.

Lemma assign_off_known (r : Promotion) (off : option Q) (o : Q) :
  category r <> Unknown ->
  assign_off r off = Ok (Some o) -> o = benefit r.
Proof.
  unfold assign_off, benefit. destruct (category r); try contradiction.
  - intros _ [= <-]. reflexivity.
  - intros _. destruct (amount r =? 0); [discriminate |]. intros [= <-].
    reflexivity.
Qed.

Lemma best_loop_Some (l : list Promotion) :
  forall off m b p,
    (forall o, off = Some o -> (o <= m)%Q) ->
    best_loop l off m b = Ok (Some p) ->
    b = Some p
    \/ (In p l /\ category p <> Unknown /\ (m < benefit p)%Q).
Proof.
  induction l as [| r l IH]; intros off m b p Hoff H.
  - left. cbn in H. congruence.
  - cbn [best_loop] in H.
    destruct (assign_off r off) as [[o |] | e] eqn:Ea; try discriminate.
    destruct (Qgtb o m) eqn:Eg.
    + apply Qgtb_true in Eg.
      assert (category r <> Unknown) as Hk.
      { intros Hu. unfold assign_off in Ea. rewrite Hu in Ea.
        injection Ea as ->. apply (Qlt_not_le _ _ Eg), Hoff. reflexivity. }
      pose proof (assign_off_known r off o Hk Ea) as ->.
      apply IH in H.
      * destruct H as [[= <-] | (Hin & Hc & Hlt)]; right.
        -- split; [left; reflexivity | split; assumption].
        -- split; [right; exact Hin |]. split; [exact Hc |].
           eapply Qlt_trans; eassumption.
      * intros o' [= <-]. apply Qle_refl.
    + apply Qgtb_false in Eg. apply IH in H.
      * destruct H as [-> | (Hin & Hc & Hlt)]; [left; reflexivity | right].
        split; [right; exact Hin | split; assumption].
      * intros o' [= <-]. exact Eg.
Qed.

(** X21.  A promotion that the finder returns is a row of the table for
    the product asked for, whose window has started at the first clock
    reading and has not ended at the second, whose category is not
    [Unknown] and whose benefit is above 0. *)
Theorem best_promotion_is_a_candidate
        (pid : Z) (db : DB) (c : Clock) (p : Promotion) :
  snd (find_best_promotion_for_product pid db c) = Ok (Some p) ->
  In p (rows db)
  /\ product_id p = pid
  /\ DateTime.leb (from_date p) (first_reading c) = true
  /\ DateTime.geb (to_date p) (second_reading c) = true
  /\ category p <> Unknown
  /\ (0 < benefit p)%Q.
Proof.
  rewrite find_best_any_clock. intros H.
  apply best_loop_Some in H; [| discriminate].
  destruct H as [H | (Hin & Hc & Hlt)]; [discriminate H |].
  apply filter_In in Hin. destruct Hin as [Hin Hcons].
  unfold considered, in_window in Hcons.
  apply andb_prop in Hcons. destruct Hcons as [Hp Hw].
  apply andb_prop in Hw. destruct Hw as [Hf Ht].
  apply Z.eqb_eq in Hp. auto 10.
Qed.

Lemma best_promotion_is_a_candidate_witness :
  In tea (rows (mk_DB [jam; mint; tea] 5))
  /\ product_id tea = 7
  /\ DateTime.leb (from_date tea) (first_reading (still spring)) = true
  /\ DateTime.geb (to_date tea) (second_reading (still spring)) = true
  /\ category tea <> Unknown
  /\ (0 < benefit tea)%Q.
Proof.
  apply (best_promotion_is_a_candidate 7 (mk_DB [jam; mint; tea] 5)
           (still spring) tea eq_refl).
Defined.

Lemma best_loop_bound_raises (l : list Promotion) :
  forall o m b,
    (forall e, best_loop l (Some o) m b = Raise e -> e = ZeroDivisionError)
    /\ (best_loop l (Some o) m b = Raise ZeroDivisionError
        <-> Exists free_for_nothing l).
Proof.
  induction l as [| r l IH]; intros o m b.
  - cbn [best_loop]. split; [discriminate |].
    split; [discriminate | intros H; inversion H].
  - assert (forall o' m' b',
               ~ free_for_nothing r ->
               (forall e, best_loop l (Some o') m' b' = Raise e ->
                          e = ZeroDivisionError)
               /\ (best_loop l (Some o') m' b' = Raise ZeroDivisionError
                   <-> Exists free_for_nothing (r :: l))) as step.
    { intros o' m' b' Hr. destruct (IH o' m' b') as [I1 I2].
      split; [exact I1 |]. rewrite I2. split; [intros H; right; exact H |].
      intros H. inversion H as [? ? Hz | ? ? Hz]; subst;
        [contradiction | exact Hz]. }
    cbn [best_loop]. unfold assign_off.
    destruct (category r) eqn:Ec.
    + destruct (Qgtb _ _); apply step; intros [Hz _]; congruence.
    + destruct (Z.eqb_spec (amount r) 0) as [Ez | Ez].
      * split; [intros e [= <-]; reflexivity |].
        split; [intros _; left; split; assumption | reflexivity].
      * destruct (Qgtb _ _); apply step; intros [_ Hz]; contradiction.
    + destruct (Qgtb _ _); apply step; intros [Hz _]; congruence.
Qed.

(** X22.  The finder raises nothing but [UnboundLocalError] and
    [ZeroDivisionError], and it raises [ZeroDivisionError] exactly when
    the first promotion considered is not of category [Unknown] and
    some promotion considered is a buy-0-get-one-free. *)
Theorem best_promotion_failures (pid : Z) (db : DB) (c : Clock) :
  (forall e, snd (find_best_promotion_for_product pid db c) = Raise e ->
             e = UnboundLocalError \/ e = ZeroDivisionError)
  /\ (snd (find_best_promotion_for_product pid db c) = Raise ZeroDivisionError
      <-> (exists r l, List.filter (considered pid c) (rows db) = r :: l
                       /\ category r <> Unknown)
          /\ Exists free_for_nothing
                    (List.filter (considered pid c) (rows db))).
Proof.
  rewrite find_best_any_clock.
  destruct (List.filter (considered pid c) (rows db)) as [| r l].
  - cbn [best_loop]. split; [discriminate |].
    split; [discriminate | intros [(r & l & H & _) _]; discriminate H].
  - assert (forall o' m' b',
               category r <> Unknown ->
               ~ free_for_nothing r ->
               (forall e, best_loop l (Some o') m' b' = Raise e ->
                          e = UnboundLocalError \/ e = ZeroDivisionError)
               /\ (best_loop l (Some o') m' b' = Raise ZeroDivisionError
                   <-> (exists r' l', r :: l = r' :: l'
                                      /\ category r' <> Unknown)
                       /\ Exists free_for_nothing (r :: l))) as step.
    { intros o' m' b' Hk Hr.
      destruct (best_loop_bound_raises l o' m' b') as [I1 I2].
      split; [intros e He; right; exact (I1 e He) |]. rewrite I2. split.
      - intros H. split; [exists r, l; split; [reflexivity | exact Hk] |].
        right. exact H.
      - intros [_ H]. inversion H as [? ? Hz | ? ? Hz]; subst;
          [contradiction | exact Hz]. }
    cbn [best_loop]. unfold assign_off.
    destruct (category r) eqn:Ec.
    + destruct (Qgtb _ _); apply step;
        try discriminate; intros [Hz _]; congruence.
    + destruct (Z.eqb_spec (amount r) 0) as [Ez | Ez].
      * split; [intros e [= <-]; right; reflexivity |].
        split; [| reflexivity]. intros _.
        split; [exists r, l; split; [reflexivity | congruence] |].
        left. split; assumption.
      * destruct (Qgtb _ _); apply step;
          try discriminate; intros [_ Hz]; contradiction.
    + split; [intros e [= <-]; left; reflexivity |].
      split; [discriminate |].
      intros [(r' & l' & [= <- <-] & H) _]. contradiction.
Qed.

Lemma best_promotion_failures_witness :
  snd (find_best_promotion_for_product 7
         (mk_DB [tea; mk_Promotion (Some 9) "nil" BOGOF 7 0 None new_year
                                   new_year_eve] 10)
         (still spring)) = Raise ZeroDivisionError.
Proof.
  apply (proj2 (best_promotion_failures 7
                  (mk_DB [tea; mk_Promotion (Some 9) "nil" BOGOF 7 0 None
                                            new_year new_year_eve] 10)
                  (still spring))).
  split.
  - exists tea, [mk_Promotion (Some 9) "nil" BOGOF 7 0 None new_year
                              new_year_eve].
    split; [reflexivity | discriminate].
  - right. left. split; reflexivity.
Defined.

Lemma valid_benefit (r : Promotion) :
  ~ invalid r -> category r <> Unknown ->
  rated r /\ (0 < benefit r)%Q /\ (benefit r <= 1)%Q.
Proof.
  unfold invalid, rated, benefit. intros Hv Hk.
  assert (0 < amount r) as Hpos by lia.
  destruct (category r) eqn:Ec; [| | contradiction].
  - assert (amount r <= 100) as Hle.
    { destruct (Z_le_gt_dec (amount r) 100) as [H | H]; [exact H |].
      exfalso. apply Hv. right. split; [reflexivity | exact H]. }
    split; [left; reflexivity |].
    unfold Qdiv, Qmult, Qinv, Qlt, Qle, inject_Z.
    simpl. lia.
  - split; [right; split; [reflexivity | lia] |].
    unfold Qdiv, Qmult, Qinv, Qlt, Qle, inject_Z.
    destruct (amount r) as [| a | a]; try lia.
    simpl. lia.
Qed.

(** X23.  On a table whose rows all pass the checks of [create] and
    have a category other than [Unknown], the finder never raises; it
    returns nothing exactly when no row is considered, and the benefit
    of the promotion it returns is above 0 and at most 1. *)
Theorem validated_table_never_fails (pid : Z) (db : DB) (c : Clock) :
  (forall r, In r (rows db) -> ~ invalid r /\ category r <> Unknown) ->
  exists res,
    snd (find_best_promotion_for_product pid db c) = Ok res
    /\ (res = None <-> List.filter (considered pid c) (rows db) = [])
    /\ (forall p, res = Some p -> (0 < benefit p)%Q /\ (benefit p <= 1)%Q).
Proof.
  intros Hv. rewrite find_best_any_clock.
  assert (Forall (fun r => ~ invalid r /\ category r <> Unknown)
                 (List.filter (considered pid c) (rows db))) as Hall.
  { apply List.Forall_forall. intros r Hr. apply filter_In in Hr.
    apply Hv, Hr. }
  destruct (best_loop_rated (List.filter (considered pid c) (rows db))
              None 0%Q None) as (res & Hres & Hcases).
  { eapply List.Forall_impl; [| exact Hall].
    intros r [H1 H2]. apply (valid_benefit r H1 H2). }
  exists res. split; [exact Hres |].
  destruct Hcases as [[-> Hle] | (l1 & p & l2 & Hsplit & -> & Hp & _)].
  - split; [| discriminate].
    split; [| reflexivity]. intros _.
    destruct (List.filter (considered pid c) (rows db)) as [| r l];
      [reflexivity |].
    inversion Hall as [| ? ? [H1 H2] _]; subst.
    inversion Hle as [| ? ? H3 _]; subst.
    destruct (valid_benefit r H1 H2) as (_ & Hpos & _).
    exfalso. exact (Qlt_not_le _ _ Hpos H3).
  - split.
    + split; [discriminate |]. rewrite Hsplit. intros H.
      destruct l1; discriminate H.
    + intros p' [= <-]. split; [exact Hp |].
      rewrite Hsplit in Hall. apply List.Forall_forall with (x := p) in Hall.
      * destruct Hall as [H1 H2]. apply (valid_benefit p H1 H2).
      * apply in_or_app. right. left. reflexivity.
Qed.

Lemma validated_table_never_fails_witness :
  exists res,
    snd (find_best_promotion_for_product 7 (mk_DB [tea; jam; mint] 4)
           (still spring)) = Ok res
    /\ res = Some tea.
Proof.
  destruct (validated_table_never_fails 7 (mk_DB [tea; jam; mint] 4)
              (still spring)) as (res & Hres & _).
  - intros r [<- | [<- | [<- | []]]];
      (split; [intros [H | [H1 H2]]; cbn in *; (lia || discriminate)
              | discriminate]).
  - exists res. split; [exact Hres |].
    vm_compute in Hres. injection Hres as <-. reflexivity.
Defined.

End BestPromotionOutcomes.
